(** * ARCSEC fingerprinting and runtime enforcement: a shallow embedding

    The development follows two source files of the repository:

    - [arcsec_fingerprint.py]  (class [ARCSECFingerprint]): fingerprints,
      manifests, integrity seals and their verification;
    - [arcsec/utilities/arcsec_injector.py] (classes [ARCSECInjector] and
      [ARCSECFileHandler]): naming validation, the sha256 content check, the
      violation log, backup and restore, and the watcher's event handler.

    Python dictionaries are finite maps with string keys ([gmap string json]);
    values that travel through [json.dump]/[json.load] are JSON values.  The
    functions of the Python standard library the code calls (hashlib, hmac,
    zlib, json, datetime) are the operations of the class [PyLib]; the file
    system, the clock and the injector's violation counter form the state
    [world], threaded through a state-and-exception monad.  Output printed
    on the terminal is not part of the model. *)

From Stdlib Require Import ZArith Ascii String.
From stdpp Require Import gmap strings list fin_maps.

Set Default Proof Using "Type".
#[local] Set Warnings "-register-all".

(** ** Strings

    Python [str] values over ASCII; the case mapping and the character
    classes of code points above 127 are outside the model. *)

Module Str.

Definition is_upper (c : ascii) : bool :=
  let n := nat_of_ascii c in (65 <=? n)%nat && (n <=? 90)%nat.

Definition is_lower (c : ascii) : bool :=
  let n := nat_of_ascii c in (97 <=? n)%nat && (n <=? 122)%nat.

Definition is_digit (c : ascii) : bool :=
  let n := nat_of_ascii c in (48 <=? n)%nat && (n <=? 57)%nat.

(** [c.isalnum()] *)
Definition isalnum (c : ascii) : bool := is_digit c || is_upper c || is_lower c.

Definition lower_char (c : ascii) : ascii :=
  if is_upper c then ascii_of_nat (nat_of_ascii c + 32) else c.

(** [s.lower()] *)
Fixpoint lower (s : string) : string :=
  match s with
  | EmptyString => EmptyString
  | String c s' => String (lower_char c) (lower s')
  end.

(** [s.startswith(p)] *)
Definition startswith (s p : string) : bool := String.prefix p s.

(** [s.endswith(suf)]: some tail of [s] is [suf]. *)
Fixpoint endswith (s suf : string) : bool :=
  String.eqb s suf ||
  match s with
  | EmptyString => false
  | String _ s' => endswith s' suf
  end.

(** [needle in s] *)
Fixpoint contains (needle s : string) : bool :=
  String.prefix needle s ||
  match s with
  | EmptyString => false
  | String _ s' => contains needle s'
  end.

(** [s[n:]] *)
Fixpoint drop (n : nat) (s : string) : string :=
  match n, s with
  | O, _ => s
  | S _, EmptyString => EmptyString
  | S n', String _ s' => drop n' s'
  end.

(** [s.replace(old, new, 1)]: the leftmost occurrence only. *)
Fixpoint replace_first (old new s : string) : string :=
  if String.prefix old s then new +:+ drop (String.length old) s
  else match s with
       | EmptyString => EmptyString
       | String c s' => String c (replace_first old new s')
       end.

(** The characters of a string, as [for char in s] visits them. *)
Fixpoint chars (s : string) : list ascii :=
  match s with
  | EmptyString => []
  | String c s' => c :: chars s'
  end.

(** [s.split(sep)] for a one-character separator. *)
Fixpoint split_on (sep : ascii) (s : string) : list string :=
  match s with
  | EmptyString => [EmptyString]
  | String c s' =>
      if Ascii.eqb c sep then EmptyString :: split_on sep s'
      else match split_on sep s' with
           | x :: xs => String c x :: xs
           | [] => [String c EmptyString]
           end
  end.

(** [sep.join(l)] *)
Fixpoint join (sep : string) (l : list string) : string :=
  match l with
  | [] => EmptyString
  | [x] => x
  | x :: rest => x +:+ sep +:+ join sep rest
  end.

(** [s[s.rfind('.'):]] when [s] has a dot. *)
Fixpoint from_last_dot (s : string) : option string :=
  match s with
  | EmptyString => None
  | String c s' =>
      match from_last_dot s' with
      | Some t => Some t
      | None => if Ascii.eqb c "." then Some s else None
      end
  end.

(** [any(s.endswith(e) for e in exts)] *)
Definition endswith_any (s : string) (exts : list string) : bool :=
  existsb (endswith s) exts.

(** [fnmatch] for one path component, as [Path.glob] applies it: [*]
    matches any run of characters and [?] any one character.  Bracket
    expressions are read literally. *)
Fixpoint fnmatch (pat s : string) : bool :=
  match pat with
  | EmptyString => match s with EmptyString => true | _ => false end
  | String p pat' =>
      if Ascii.eqb p "*" then
        (fix star (s : string) : bool :=
           fnmatch pat' s ||
           match s with
           | EmptyString => false
           | String _ s' => star s'
           end) s
      else match s with
           | EmptyString => false
           | String c s' => (Ascii.eqb p "?" || Ascii.eqb c p) && fnmatch pat' s'
           end
  end.

(** [x in l] for a list of strings. *)
Definition mem (x : string) (l : list string) : bool :=
  existsb (String.eqb x) l.

(** Decimal digits of a natural number, least significant first, with fuel. *)
Fixpoint digits_rev (fuel n : nat) : list ascii :=
  match fuel with
  | O => []
  | S fuel' =>
      ascii_of_nat (48 + n mod 10) ::
      (if (n <? 10)%nat then [] else digits_rev fuel' (n / 10))
  end.

Definition of_chars (l : list ascii) : string :=
  fold_right String EmptyString l.

(** [f"{n:06d}"] *)
Definition pad6 (n : nat) : string :=
  let ds := rev (digits_rev (S n) n) in
  of_chars (replicate (6 - List.length ds) "0"%char ++ ds).

End Str.

(** ** Paths ([pathlib.PurePosixPath])

    A path is its anchor and its components; empty components and [.] are
    dropped by the constructor, [..] is kept.  A doubled leading slash is
    read as one. *)

Module PPath.

Record t := mk { anchored : bool; parts : list string }.

Definition keep (c : string) : bool :=
  negb (String.eqb c "") && negb (String.eqb c ".").

(** [Path(s)] *)
Definition Path (s : string) : t :=
  {| anchored := Str.startswith s "/";
     parts := List.filter keep (Str.split_on "/" s) |}.

(** [path.name] *)
Definition name (p : t) : string := List.last (parts p) "".

(** [path.parent] *)
Definition parent (p : t) : t :=
  {| anchored := anchored p; parts := removelast (parts p) |}.

(** [path.suffix]: from the last dot of the name, when that dot is neither
    its first nor its last character. *)
Definition suffix (p : t) : string :=
  match name p with
  | EmptyString => ""
  | String _ rest =>
      match Str.from_last_dot rest with
      | Some t => if (1 <? String.length t)%nat then t else ""
      | None => ""
      end
  end.

(** [str(path)] *)
Definition to_str (p : t) : string :=
  if anchored p then "/" +:+ Str.join "/" (parts p)
  else match parts p with
       | [] => "."
       | _ => Str.join "/" (parts p)
       end.

End PPath.

(** [os.path.join(a, b)] *)
Definition os_path_join (a b : string) : string :=
  if Str.startswith b "/" then b
  else if String.eqb a "" || Str.endswith a "/" then a +:+ b
  else a +:+ "/" +:+ b.

(** ** Python values

    A float is kept as a dyadic number [m * 2^e] (or a special value), which
    is enough for truth tests and for comparing it with an integer.  The
    JSON values are those [json.load] builds: [None], [bool], [int], [float],
    [str], [list] and [dict] with string keys. *)

Inductive pyfloat := FFinite (m e : Z) | FInf (neg : bool) | FNaN.

Inductive json :=
| JNull
| JBool (b : bool)
| JInt (n : Z)
| JFloat (f : pyfloat)
| JStr (s : string)
| JList (l : list json)
| JObj (o : gmap string json).

Inductive exn :=
| FileNotFoundError
| IsADirectoryError
| NotADirectoryError
| FileExistsError
| SameFileError
| AttributeError
| TypeError
| KeyError (k : string)
| JSONDecodeError.

(** The outcome of an expression that may raise. *)
Definition res (A : Type) : Type := exn + A.

Definition rbind {A B} (r : res A) (k : A -> res B) : res B :=
  match r with
  | inl e => inl e
  | inr a => k a
  end.

Module Py.

(** A dict display [{k1: v1, ...}] *)
Definition obj (l : list (string * json)) : json := JObj (list_to_map l).

Definition float_eq_int (f : pyfloat) (n : Z) : bool :=
  match f with
  | FFinite m e => if (0 <=? e)%Z then (n =? m * 2 ^ e)%Z else (n * 2 ^ (- e) =? m)%Z
  | _ => false
  end.

(** [s == v] for a string [s] *)
Definition str_eq (s : string) (v : json) : bool :=
  match v with
  | JStr t => String.eqb s t
  | _ => false
  end.

(** [n == v] for an integer [n]; [bool] is a subclass of [int]. *)
Definition int_eq (n : Z) (v : json) : bool :=
  match v with
  | JInt m => (n =? m)%Z
  | JBool b => (n =? Z.b2z b)%Z
  | JFloat f => float_eq_int f n
  | _ => false
  end.

(** [a == b] where [a] is a [str], an [int], a [bool] or [None]; the
    code compares nothing else. *)
Definition eq (a b : json) : bool :=
  match a with
  | JStr s => str_eq s b
  | JInt n => int_eq n b
  | JBool x => int_eq (Z.b2z x) b
  | JNull => match b with JNull => true | _ => false end
  | _ => false
  end.

(** The truth value of [v], as [if v] and [not v] test it. *)
Definition truthy (v : json) : bool :=
  match v with
  | JNull => false
  | JBool b => b
  | JInt n => negb (n =? 0)%Z
  | JFloat (FFinite m _) => negb (m =? 0)%Z
  | JFloat _ => true
  | JStr s => negb (String.eqb s "")
  | JList l => match l with [] => false | _ => true end
  | JObj o => negb (bool_decide (o = ∅))
  end.

(** [v.get(k, default)]; only a dict has [get]. *)
Definition get (v : json) (k : string) (default : json) : res json :=
  match v with
  | JObj o => inr (match o !! k with Some x => x | None => default end)
  | _ => inl AttributeError
  end.

(** [v[k]] for a string [k] *)
Definition getitem (v : json) (k : string) : res json :=
  match v with
  | JObj o => match o !! k with Some x => inr x | None => inl (KeyError k) end
  | _ => inl TypeError
  end.


(** [k in v] for a string [k] *)
Definition contains (k : string) (v : json) : res bool :=
  match v with
  | JObj o => inr (bool_decide (is_Some (o !! k)))
  | JList l => inr (existsb (str_eq k) l)
  | JStr s => inr (Str.contains k s)
  | _ => inl TypeError
  end.

(** [v.items()]; the order in which a dict read from a file is visited is
    the order of its keys in the file, which the map does not record: the
    model visits the keys in the order of [map_to_list]. *)
Definition items (v : json) : res (list (string * json)) :=
  match v with
  | JObj o => inr (map_to_list o)
  | _ => inl AttributeError
  end.

End Py.

(** ** The library interface

    The operations of the Python standard library the two modules call.
    [bytes] is the type of file contents and of hash inputs. *)

Class PyLib := {
  bytes : Type;
  (** [len(b)] *)
  blen : bytes -> Z;
  (** [a + b] *)
  bcat : bytes -> bytes -> bytes;
  (** [s.encode('utf-8')], and what a text-mode [write] stores *)
  encode : string -> bytes;
  (** [hashlib.sha256(b).hexdigest()] and its siblings *)
  sha256_hex : bytes -> string;
  sha512_hex : bytes -> string;
  blake2b_hex : bytes -> string;
  (** [hmac.new(key, b, hashlib.sha256).hexdigest()] *)
  hmac_sha256_hex : bytes -> bytes -> string;
  (** [hashlib.pbkdf2_hmac('sha256', password, salt, iterations)] *)
  pbkdf2_hmac_sha256 : bytes -> bytes -> Z -> bytes;
  (** [zlib.compress(b)] *)
  zlib_compress : bytes -> bytes;
  (** [a / b] and [x * n] on numbers *)
  truediv : Z -> Z -> pyfloat;
  fmul : pyfloat -> Z -> pyfloat;
  (** [json.dumps(v, sort_keys=True).encode('utf-8')] *)
  json_dumps_sorted : json -> bytes;
  (** [json.dumps(v)] *)
  json_dumps : json -> string;
  (** what [json.dump(v, f, indent=2, ensure_ascii=False)] stores in [f] *)
  json_dump : json -> bytes;
  (** [json.load(f)] on the contents of [f] *)
  json_load : bytes -> res json;
  (** [datetime.fromtimestamp(t, timezone.utc).isoformat()] *)
  isoformat : Z -> string;
  (** [datetime.fromtimestamp(t).strftime("%Y%m%d_%H%M%S")] *)
  strftime_ymd_hms : Z -> string;
  (** [str(e)] *)
  exn_str : exn -> string;
}.

(** ** The file system, the clock and the process state *)

Section Model.

Context {L : PyLib}.

(** A regular file has contents, a modification time and a change time; a
    directory has a modification time and its entries in the order in
    which a scan of the directory lists them. *)
Inductive node :=
| File (content : bytes) (mtime ctime : Z)
| Dir (mtime : Z) (entries : list (string * node)).

Fixpoint alist_get (k : string) (es : list (string * node)) : option node :=
  match es with
  | [] => None
  | (k', n) :: rest => if String.eqb k k' then Some n else alist_get k rest
  end.

(** Replace the entry in place, or add it at the end. *)
Fixpoint alist_set (k : string) (n : node) (es : list (string * node))
  : list (string * node) :=
  match es with
  | [] => [(k, n)]
  | (k', n') :: rest =>
      if String.eqb k k' then (k, n) :: rest else (k', n') :: alist_set k n rest
  end.

Fixpoint fs_get (n : node) (p : list string) : option node :=
  match p with
  | [] => Some n
  | c :: rest =>
      match n with
      | Dir _ es =>
          match alist_get c es with
          | Some n' => fs_get n' rest
          | None => None
          end
      | File _ _ _ => None
      end
  end.

(** Store [new] at [p]; the parent directory must exist.  A directory that
    gains an entry takes the time [now] as its modification time. *)
Fixpoint fs_put (now : Z) (n : node) (p : list string) (new : node) : option node :=
  match p with
  | [] => Some new
  | c :: rest =>
      match n with
      | Dir mt es =>
          match rest with
          | [] =>
              Some (Dir (match alist_get c es with Some _ => mt | None => now end)
                        (alist_set c new es))
          | _ :: _ =>
              match alist_get c es with
              | Some n' =>
                  match fs_put now n' rest new with
                  | Some n'' => Some (Dir mt (alist_set c n'' es))
                  | None => None
                  end
              | None => None
              end
          end
      | File _ _ _ => None
      end
  end.

Definition is_dir (o : option node) : bool :=
  match o with
  | Some (Dir _ _) => true
  | _ => false
  end.

(** Walk the components of a path from the directory [stack]: an empty
    component or [.] stays, [..] goes up, a name goes down; the directory
    walked from must exist.  The last name itself need not exist. *)
Fixpoint resolve_from (root : node) (stack comps : list string) : res (list string) :=
  match comps with
  | [] => inr stack
  | c :: rest =>
      if String.eqb c "" || String.eqb c "." then resolve_from root stack rest
      else match fs_get root stack with
           | Some (Dir _ _) =>
               if String.eqb c ".." then resolve_from root (removelast stack) rest
               else resolve_from root (stack ++ [c]) rest
           | Some (File _ _ _) => inl NotADirectoryError
           | None => inl FileNotFoundError
           end
  end.

(** [violation_count] is the counter of the [ARCSECInjector] object;
    [clock n] is the time the [n]-th reading of the clock returns. *)
Record world := mkWorld {
  fs : node;
  cwd : list string;
  ticks : nat;
  clock : nat -> Z;
  violation_count : nat;
}.

Definition resolve (w : world) (p : string) : res (list string) :=
  if String.eqb p "" then inl FileNotFoundError
  else resolve_from (fs w) (if Str.startswith p "/" then [] else cwd w)
                    (Str.split_on "/" p).

Definition lookup_path (w : world) (p : string) : res node :=
  rbind (resolve w p) (fun q =>
    match fs_get (fs w) q with
    | Some n => inr n
    | None => inl FileNotFoundError
    end).

(** [os.path.exists(p)] *)
Definition os_path_exists (w : world) (p : string) : bool :=
  match lookup_path w p with
  | inr _ => true
  | inl _ => false
  end.

(** [Path(p).exists()] *)
Definition path_exists (w : world) (p : PPath.t) : bool :=
  os_path_exists w (PPath.to_str p).

(** *** State and exceptions *)

Definition M (A : Type) : Type := world -> res A * world.

Definition ret {A} (a : A) : M A := fun w => (inr a, w).

Definition raise {A} (e : exn) : M A := fun w => (inl e, w).

Definition bind {A B} (m : M A) (k : A -> M B) : M B :=
  fun w =>
    match m w with
    | (inr a, w') => k a w'
    | (inl e, w') => (inl e, w')
    end.

(** [try: m  except Exception as e: h e] *)
Definition try_except {A} (m : M A) (h : exn -> M A) : M A :=
  fun w =>
    match m w with
    | (inr a, w') => (inr a, w')
    | (inl e, w') => h e w'
    end.

Definition lift {A} (r : res A) : M A := fun w => (r, w).

Definition get_world : M world := fun w => (inr w, w).

Definition set_fs (n : node) : M unit :=
  fun w => (inr tt, mkWorld n (cwd w) (ticks w) (clock w) (violation_count w)).

(** One reading of the clock. *)
Definition now : M Z :=
  fun w => (inr (clock w (ticks w)),
            mkWorld (fs w) (cwd w) (S (ticks w)) (clock w) (violation_count w)).

End Model.

Notation "x <- m ;; k" := (bind m (fun x => k))
  (at level 100, m at next level, right associativity).
Notation "m ;;; k" := (bind m (fun _ => k))
  (at level 100, right associativity).

Section FileOps.

Context {L : PyLib}.

Fixpoint foldM {A B} (f : B -> A -> M B) (l : list A) (b : B) : M B :=
  match l with
  | [] => ret b
  | a :: rest => b' <- f b a ;; foldM f rest b'
  end.

(** [open(p, 'rb').read()], and [open(p, 'r').read()] before decoding *)
Definition read_bytes (p : string) : M bytes :=
  w <- get_world ;;
  match lookup_path w p with
  | inr (File c _ _) => ret c
  | inr (Dir _ _) => raise IsADirectoryError
  | inl e => raise e
  end.

(** [os.stat(p)]: size (of a regular file), modification and change time *)
Definition stat (p : string) : M (Z * Z * Z) :=
  w <- get_world ;;
  match lookup_path w p with
  | inr (File c mt ct) => ret (blen c, mt, ct)
  | inr (Dir mt _) => ret (0%Z, mt, mt)
  | inl e => raise e
  end.


(** [open(p, 'a')], one [write], [close] *)
Definition append_file (p : string) (c : bytes) : M unit :=
  w <- get_world ;;
  q <- lift (resolve w p) ;;
  match fs_get (fs w) q with
  | Some (Dir _ _) => raise IsADirectoryError
  | o =>
      t <- now ;;
      let c' := match o with Some (File c0 _ _) => bcat c0 c | _ => c end in
      match fs_put t (fs w) q (File c' t t) with
      | Some n => set_fs n
      | None => raise FileNotFoundError
      end
  end.

(** [Path(p).mkdir(exist_ok=True)] *)
Definition mkdir_exist_ok (p : PPath.t) : M unit :=
  w <- get_world ;;
  q <- lift (resolve w (PPath.to_str p)) ;;
  match fs_get (fs w) q with
  | Some (Dir _ _) => ret tt
  | Some (File _ _ _) => raise FileExistsError
  | None =>
      t <- now ;;
      match fs_put t (fs w) q (Dir t []) with
      | Some n => set_fs n
      | None => raise FileNotFoundError
      end
  end.

(** [shutil.copy2(src, dst)]: the contents and the modification time of
    [src] are copied; a directory [dst] receives the file under the name
    of [src]. *)
Definition copy2 (src dst : string) : M unit :=
  w <- get_world ;;
  let dst :=
    if is_dir (match lookup_path w dst with inr n => Some n | inl _ => None end)
    then os_path_join dst (PPath.name (PPath.Path src)) else dst in
  qs <- lift (resolve w src) ;;
  match fs_get (fs w) qs with
  | None => raise FileNotFoundError
  | Some (Dir _ _) => raise IsADirectoryError
  | Some (File c mt _) =>
      qd <- lift (resolve w dst) ;;
      if bool_decide (qs = qd) then raise SameFileError
      else match fs_get (fs w) qd with
           | Some (Dir _ _) => raise IsADirectoryError
           | _ =>
               t <- now ;;
               match fs_put t (fs w) qd (File c mt t) with
               | Some n => set_fs n
               | None => raise FileNotFoundError
               end
           end
  end.

Definition dirnames (es : list (string * node)) : list string :=
  map fst (List.filter (fun e => match snd e with Dir _ _ => true | _ => false end) es).

Definition filenames (es : list (string * node)) : list string :=
  map fst (List.filter (fun e => match snd e with Dir _ _ => false | _ => true end) es).

(** [os.walk(top)], top down, on the directory [n] *)
Fixpoint walk_node (top : string) (n : node) : list (string * list string * list string) :=
  match n with
  | File _ _ _ => []
  | Dir _ es =>
      (top, dirnames es, filenames es) ::
      (fix go (es : list (string * node)) :=
         match es with
         | [] => []
         | (name, child) :: rest => walk_node (os_path_join top name) child ++ go rest
         end) es
  end.

Definition os_walk (w : world) (top : string) : list (string * list string * list string) :=
  match lookup_path w top with
  | inr n => walk_node top n
  | inl _ => []
  end.

(** [list(Path(d).glob(pattern))] for a one-component pattern: the entries
    of [d] whose name matches, as paths under [d]. *)
Definition glob (w : world) (d : PPath.t) (pattern : string) : list string :=
  match lookup_path w (PPath.to_str d) with
  | inr (Dir _ es) =>
      map (fun e => os_path_join (PPath.to_str d) (fst e))
          (List.filter (fun e => Str.fnmatch pattern (fst e)) es)
  | _ => []
  end.

(** Lexical normalisation, as [os.path.normpath] does it. *)
Fixpoint normparts (stack comps : list string) : list string :=
  match comps with
  | [] => stack
  | c :: rest =>
      if String.eqb c "" || String.eqb c "." then normparts stack rest
      else if String.eqb c ".." then normparts (removelast stack) rest
      else normparts (stack ++ [c]) rest
  end.

(** [os.path.abspath(p)] *)
Definition os_path_abspath (w : world) (p : string) : string :=
  "/" +:+ Str.join "/" (normparts (if Str.startswith p "/" then [] else cwd w)
                                  (Str.split_on "/" p)).

(** [str(path.absolute())] *)
Definition path_absolute (w : world) (p : PPath.t) : string :=
  if PPath.anchored p then PPath.to_str p
  else "/" +:+ Str.join "/" (cwd w ++ PPath.parts p).

End FileOps.

(** ** [arcsec_fingerprint.py]: class [ARCSECFingerprint] *)

Section Fingerprint.

Context {L : PyLib}.

Definition digital_signature : string := "a6672edf248c5eeef3054ecca057075c938af653".
Definition creator : string := "Daniel Guzman".
Definition version : string := "3.0X".

Definition derive_secret_key : bytes :=
  pbkdf2_hmac_sha256 (encode digital_signature) (encode "ARCSEC_WAR_MODE_SALT") 100000.

(** [self.secret_key], set once by [__init__] *)
Definition secret_key : bytes := derive_secret_key.

Definition calculate_file_hash (filepath : string) : M json :=
  try_except
    (let path := PPath.Path filepath in
     w <- get_world ;;
     if negb (path_exists w path) then
       ret (Py.obj [("error", JStr ("File not found: " +:+ filepath))])
     else
       content <- read_bytes filepath ;;
       let sha256_hash := sha256_hex content in
       let sha512_hash := sha512_hex content in
       let blake2b_hash := blake2b_hex content in
       let hmac_signature := hmac_sha256_hex secret_key content in
       st <- stat (PPath.to_str path) ;;
       let '(st_size, st_mtime, st_ctime) := st in
       w' <- get_world ;;
       t <- now ;;
       ret (Py.obj [
         ("filename", JStr (PPath.name path));
         ("filepath", JStr (path_absolute w' path));
         ("size", JInt st_size);
         ("created", JStr (isoformat st_ctime));
         ("modified", JStr (isoformat st_mtime));
         ("fingerprinted", JStr (isoformat t));
         ("hashes", Py.obj [
            ("sha256", JStr sha256_hash);
            ("sha512", JStr sha512_hash);
            ("blake2b", JStr blake2b_hash)]);
         ("hmac_signature", JStr hmac_signature);
         ("compression_ratio",
            if (0 <? blen content)%Z
            then JFloat (truediv (blen (zlib_compress content)) (blen content))
            else JInt 0);
         ("metadata", Py.obj [
            ("creator", JStr creator);
            ("digital_signature", JStr digital_signature);
            ("version", JStr version);
            ("protection_level", JStr "WAR_MODE");
            ("tamper_detection", JStr "ENABLED")])]))
    (fun e =>
       ret (Py.obj [("error",
         JStr ("Failed to fingerprint " +:+ filepath +:+ ": " +:+ exn_str e))])).

Definition generate_integrity_seal (fingerprints : json) : M json :=
  let fingerprint_data := json_dumps_sorted fingerprints in
  let manifest_hash := sha256_hex fingerprint_data in
  let integrity_seal := hmac_sha256_hex secret_key fingerprint_data in
  t <- now ;;
  let timestamp := isoformat t in
  let timestamp_proof :=
    hmac_sha256_hex secret_key (encode (manifest_hash +:+ ":" +:+ timestamp)) in
  ret (Py.obj [
    ("manifest_hash", JStr manifest_hash);
    ("integrity_seal", JStr integrity_seal);
    ("timestamp", JStr timestamp);
    ("timestamp_proof", JStr timestamp_proof);
    ("sealed_by", JStr (creator +:+ " - ARCSEC v" +:+ version));
    ("verification_status", JStr "CRYPTOGRAPHICALLY_SEALED")]).

(** The test of line 99 on a file name. *)
Definition scan_selects (file : string) : bool :=
  Str.startswith file "arcsec" || Str.startswith file "ARCSEC".

(** The first loop of [scan_arcsec_files]: the paths it collects. *)
Definition scan_collect (walk : list (string * list string * list string)) : list string :=
  flat_map (fun '(root, _, files) =>
              map (os_path_join root) (List.filter scan_selects files)) walk.

Definition scan_arcsec_files (root_directory : string) : M json :=
  w <- get_world ;;
  let arcsec_files := scan_collect (os_walk w root_directory) in
  fingerprints <-
    foldM (fun (fps : gmap string json) filepath =>
             fingerprint <- calculate_file_hash filepath ;;
             ret (<[filepath := fingerprint]> fps))
          arcsec_files ∅ ;;
  let total_files := Z.of_nat (List.length arcsec_files) in
  t <- now ;;
  w' <- get_world ;;
  seal <- generate_integrity_seal (JObj fingerprints) ;;
  ret (Py.obj [
    ("arcsec_fingerprint_manifest", Py.obj [
       ("version", JStr version);
       ("creator", JStr creator);
       ("digital_signature", JStr digital_signature);
       ("generated", JStr (isoformat t));
       ("total_files", JInt total_files);
       ("scan_directory", JStr (os_path_abspath w' root_directory));
       ("protection_mode", JStr "WAR_MODE_ACTIVE");
       ("verification_method", JStr "CRYPTOGRAPHIC_HMAC_SHA256")]);
    ("file_fingerprints", JObj fingerprints);
    ("integrity_seal", seal)]).

(** [a and b] on two comparisons, the second evaluated only after the
    first holds. *)
Definition and_then (a : bool) (b : M bool) : M bool :=
  if a then b else ret false.

Definition verify_file_integrity (filepath : string) (expected_fingerprint : json)
  : M json :=
  current_fingerprint <- calculate_file_hash filepath ;;
  has_error <- lift (Py.contains "error" current_fingerprint) ;;
  if has_error then
    err <- lift (Py.getitem current_fingerprint "error") ;;
    ret (Py.obj [
      ("verified", JBool false);
      ("status", JStr "FILE_NOT_FOUND");
      ("error", err)])
  else
    let current_hash k :=
      lift (rbind (Py.getitem current_fingerprint "hashes") (fun h => Py.getitem h k)) in
    let expected_hash k :=
      lift (rbind (Py.get expected_fingerprint "hashes" (Py.obj []))
                  (fun h => Py.get h k JNull)) in
    let same k := c <- current_hash k ;; e <- expected_hash k ;; ret (Py.eq c e) in
    m256 <- same "sha256" ;;
    m512 <- and_then m256 (same "sha512") ;;
    hash_match <- and_then m512 (same "blake2b") ;;
    cur_hmac <- lift (Py.getitem current_fingerprint "hmac_signature") ;;
    exp_hmac <- lift (Py.get expected_fingerprint "hmac_signature" JNull) ;;
    let hmac_match := Py.eq cur_hmac exp_hmac in
    cur_size <- lift (Py.getitem current_fingerprint "size") ;;
    exp_size <- lift (Py.get expected_fingerprint "size" JNull) ;;
    let size_match := Py.eq cur_size exp_size in
    let all := hash_match && hmac_match && size_match in
    t <- now ;;
    ret (Py.obj [
      ("verified", JBool all);
      ("status", JStr (if all then "VERIFIED" else "TAMPERED"));
      ("checks", Py.obj [
         ("hash_integrity", JBool hash_match);
         ("hmac_authenticity", JBool hmac_match);
         ("size_consistency", JBool size_match)]);
      ("current_fingerprint", current_fingerprint);
      ("expected_fingerprint", expected_fingerprint);
      ("verification_time", JStr (isoformat t))]).

Definition verify_manifest_integrity (manifest : json) : M json :=
  try_except
    (fingerprints <- lift (Py.get manifest "file_fingerprints" (Py.obj [])) ;;
     expected_seal <- lift (Py.get manifest "integrity_seal" (Py.obj [])) ;;
     current_seal <- generate_integrity_seal fingerprints ;;
     cur_hash <- lift (Py.getitem current_seal "manifest_hash") ;;
     exp_hash <- lift (Py.get expected_seal "manifest_hash" JNull) ;;
     seal_match <-
       and_then (Py.eq cur_hash exp_hash)
         (cur_seal <- lift (Py.getitem current_seal "integrity_seal") ;;
          exp_seal <- lift (Py.get expected_seal "integrity_seal" JNull) ;;
          ret (Py.eq cur_seal exp_seal)) ;;
     t <- now ;;
     ret (Py.obj [
       ("verified", JBool seal_match);
       ("status", JStr (if seal_match then "MANIFEST_VERIFIED" else "MANIFEST_TAMPERED"));
       ("seal_integrity", JBool seal_match);
       ("verification_time", JStr (isoformat t));
       ("expected_seal", expected_seal);
       ("current_seal", current_seal)]))
    (fun e =>
       ret (Py.obj [
         ("verified", JBool false);
         ("status", JStr "VERIFICATION_ERROR");
         ("error", JStr (exn_str e))])).


(** The first statement of [load_and_verify_manifest]: open and
    [json.load]. *)
Definition load_manifest (manifest_file : string) : M json :=
  content <- read_bytes manifest_file ;;
  lift (json_load content).

Definition is_verified (v : json) : bool :=
  match Py.get v "verified" (JBool false) with
  | inr x => Py.truthy x
  | inl _ => false
  end.

Definition load_and_verify_manifest (manifest_file : string) : M json :=
  try_except
    (manifest <- load_manifest manifest_file ;;
     manifest_verification <- verify_manifest_integrity manifest ;;
     verified <- lift (Py.getitem manifest_verification "verified") ;;
     if negb (Py.truthy verified) then
       ret (Py.obj [
         ("status", JStr "MANIFEST_COMPROMISED");
         ("manifest_verification", manifest_verification);
         ("file_verifications", Py.obj [])])
     else
       fingerprints <- lift (Py.get manifest "file_fingerprints" (Py.obj [])) ;;
       items <- lift (Py.items fingerprints) ;;
       file_verifications <-
         foldM (fun (acc : gmap string json) '(filepath, expected_fingerprint) =>
                  has_error <- lift (Py.contains "error" expected_fingerprint) ;;
                  if negb has_error then
                    verification <- verify_file_integrity filepath expected_fingerprint ;;
                    ret (<[filepath := verification]> acc)
                  else ret acc)
               items ∅ ;;
       let total_files := Z.of_nat (size file_verifications) in
       let verified_files :=
         Z.of_nat (List.length (List.filter (fun kv => is_verified (snd kv))
                                            (map_to_list file_verifications))) in
       let tampered_files := (total_files - verified_files)%Z in
       ret (Py.obj [
         ("status", JStr "VERIFICATION_COMPLETE");
         ("manifest_verification", manifest_verification);
         ("file_verifications", JObj file_verifications);
         ("summary", Py.obj [
            ("total_files", JInt total_files);
            ("verified_files", JInt verified_files);
            ("tampered_files", JInt tampered_files);
            ("integrity_rate",
               if (0 <? total_files)%Z
               then JFloat (fmul (truediv verified_files total_files) 100)
               else JInt 0)])]))
    (fun e =>
       ret (Py.obj [
         ("status", JStr "VERIFICATION_ERROR");
         ("error", JStr (exn_str e))])).

End Fingerprint.

(** ** [arcsec_injector.py]: classes [ARCSECInjector] and [ARCSECFileHandler] *)

Section Injector.

Context {L : PyLib}.

(** The fields [__init__] sets and nothing changes. *)
Definition war_mode : bool := true.
Definition manifest_file : string := "ARCSEC_FINGERPRINT_MANIFEST.json".
Definition violation_log : string := "ARCSEC_VIOLATIONS.log".

(** [load_enforcement_rules()["naming_convention"]] *)
Definition prefix_required : string := "arcsec".
Definition allowed_separators : list string := ["-"; "_"].
Definition extensions : list string := [".ts"; ".js"; ".py"; ".json"; ".md"].

(** [load_enforcement_rules()["violation_responses"]] *)
Definition violation_responses : list (string * string) :=
  [("UNAUTHORIZED_MODIFICATION", "BLOCK_AND_RESTORE");
   ("NAMING_VIOLATION", "REJECT_AND_ALERT");
   ("SIGNATURE_MISMATCH", "QUARANTINE_AND_INVESTIGATE");
   ("DELETION_ATTEMPT", "PREVENT_AND_BACKUP")].

(** The test of line 124 on one character. *)
Definition char_allowed (c : ascii) : bool :=
  Str.isalnum c || Str.mem (String c EmptyString) allowed_separators || Ascii.eqb c ".".

(** Lines 103-107. *)
Definition is_arcsec_file (filepath : string) : bool :=
  let path := PPath.Path filepath in
  let filename := Str.lower (PPath.name path) in
  Str.startswith filename "arcsec" ||
  Str.contains "arcsec" filename ||
  String.eqb (PPath.name (PPath.parent path)) "services".

(** Lines 113-127: the list [violations] after the three checks. *)
Definition naming_violations (filepath : string) : list string :=
  let filename := Str.lower (PPath.name (PPath.Path filepath)) in
  let v1 :=
    if negb (Str.startswith filename prefix_required)
    then ["Missing required prefix: " +:+ prefix_required] else [] in
  let v2 :=
    if negb (Str.endswith_any filename extensions)
    then v1 ++ ["Invalid extension. Allowed: ['.ts', '.js', '.py', '.json', '.md']"]
    else v1 in
  let filename_body := Str.replace_first prefix_required "" filename in
  match List.find (fun c => negb (char_allowed c)) (Str.chars filename_body) with
  | Some c => v2 ++ ["Invalid character in filename: '" +:+ String c "'"]
  | None => v2
  end.

Definition validate_arcsec_naming (filepath : string) : json :=
  if negb (is_arcsec_file filepath) then
    Py.obj [("valid", JBool true); ("reason", JStr "Not an ARCSEC file")]
  else
    let violations := naming_violations filepath in
    Py.obj [
      ("valid", JBool (Nat.eqb (List.length violations) 0));
      ("violations", JList (map JStr violations));
      ("enforcement_action",
         match violations with [] => JNull | _ => JStr "REJECT_AND_ALERT" end)].

Definition check_file_integrity (filepath : string) : M json :=
  try_except
    (w <- get_world ;;
     if negb (os_path_exists w manifest_file) then
       ret (Py.obj [("status", JStr "NO_MANIFEST"); ("action", JStr "GENERATE_BASELINE")])
     else
       text <- read_bytes manifest_file ;;
       manifest <- lift (json_load text) ;;
       fingerprints <- lift (Py.get manifest "file_fingerprints" (Py.obj [])) ;;
       expected_fingerprint <- lift (Py.get fingerprints filepath JNull) ;;
       if negb (Py.truthy expected_fingerprint) then
         ret (Py.obj [("status", JStr "NEW_FILE"); ("action", JStr "ADD_TO_MANIFEST")])
       else
         content <- read_bytes filepath ;;
         let current_hash := sha256_hex content in
         expected_hash <-
           lift (rbind (Py.get expected_fingerprint "hashes" (Py.obj []))
                       (fun h => Py.get h "sha256" JNull)) ;;
         if negb (Py.eq (JStr current_hash) expected_hash) then
           ret (Py.obj [
             ("status", JStr "INTEGRITY_VIOLATION");
             ("action", JStr "BLOCK_AND_RESTORE");
             ("expected_hash", expected_hash);
             ("current_hash", JStr current_hash)])
         else
           ret (Py.obj [("status", JStr "VERIFIED"); ("action", JStr "ALLOW")]))
    (fun e =>
       ret (Py.obj [
         ("status", JStr "CHECK_ERROR");
         ("error", JStr (exn_str e));
         ("action", JStr "ALERT")])).

Definition incr_violation_count : M nat :=
  fun w =>
    (inr (S (violation_count w)),
     mkWorld (fs w) (cwd w) (ticks w) (clock w) (S (violation_count w))).

Definition newline : string := String (ascii_of_nat 10) EmptyString.

Definition log_violation (violation_type filepath : string) (details : json) : M unit :=
  count <- incr_violation_count ;;
  t <- now ;;
  action <- lift (Py.get details "action" (JStr "UNKNOWN")) ;;
  let violation_entry := Py.obj [
    ("timestamp", JStr (isoformat t));
    ("violation_id", JStr ("ARCSEC-" +:+ Str.pad6 count));
    ("type", JStr violation_type);
    ("filepath", JStr filepath);
    ("details", details);
    ("enforcement_action", action);
    ("war_mode", JBool war_mode);
    ("digital_signature", JStr digital_signature)] in
  append_file violation_log (encode (json_dumps violation_entry +:+ newline)).

Definition enforce_protection (filepath event_type : string) : M bool :=
  try_except
    (let naming_result := validate_arcsec_naming filepath in
     valid <- lift (Py.getitem naming_result "valid") ;;
     blocked <-
       (if negb (Py.truthy valid) then
          log_violation "NAMING_VIOLATION" filepath naming_result ;;;
          ret war_mode
        else ret false) ;;
     if (blocked : bool) then ret false
     else
       w <- get_world ;;
       if os_path_exists w filepath && Str.mem event_type ["modified"; "created"] then
         integrity_result <- check_file_integrity filepath ;;
         status <- lift (Py.getitem integrity_result "status") ;;
         if Py.eq status (JStr "INTEGRITY_VIOLATION") then
           log_violation "UNAUTHORIZED_MODIFICATION" filepath integrity_result ;;;
           ret (negb war_mode)
         else ret true
       else ret true)
    (fun e =>
       log_violation "ENFORCEMENT_ERROR" filepath (Py.obj [("error", JStr (exn_str e))]) ;;;
       ret false).

Definition backup_dir : PPath.t := PPath.Path ".arcsec_backups".

Definition backup_file (filepath : string) : M string :=
  try_except
    (mkdir_exist_ok backup_dir ;;;
     t <- now ;;
     let timestamp := strftime_ymd_hms t in
     let filename := PPath.name (PPath.Path filepath) in
     let backup_path :=
       PPath.to_str backup_dir +:+ "/" +:+ filename +:+ "." +:+ timestamp +:+ ".backup" in
     copy2 filepath backup_path ;;;
     ret backup_path)
    (fun _ => ret "").

(** [max(best :: rest, key=lambda p: p.stat().st_mtime)] with the key of
    [best] already computed: the first path of greatest key. *)
Fixpoint max_by_mtime (best : string) (best_mtime : Z) (rest : list string) : M string :=
  match rest with
  | [] => ret best
  | p :: rest' =>
      st <- stat p ;;
      let mt := snd (fst st) in
      if (best_mtime <? mt)%Z then max_by_mtime p mt rest'
      else max_by_mtime best best_mtime rest'
  end.

Definition restore_file (filepath : string) : M bool :=
  try_except
    (w <- get_world ;;
     if path_exists w backup_dir then
       let filename := PPath.name (PPath.Path filepath) in
       let backups := glob w backup_dir (filename +:+ ".*.backup") in
       match backups with
       | b :: rest =>
           st <- stat b ;;
           latest_backup <- max_by_mtime b (snd (fst st)) rest ;;
           copy2 latest_backup filepath ;;;
           ret true
       | [] => ret false
       end
     else ret false)
    (fun _ => ret false).

(** A watchdog event. *)
Record event := mkEvent {
  is_directory : bool;
  src_path : string;
  event_type : string;
}.

Definition is_arcsec_related (filepath : string) : bool :=
  let path := PPath.Path filepath in
  let filename := Str.lower (PPath.name path) in
  Str.startswith filename "arcsec" ||
  Str.contains "arcsec" filename ||
  (Str.mem (PPath.suffix path) [".ts"; ".js"; ".py"] &&
   Str.contains "server/services" (PPath.to_str path)).

Definition on_any_event (ev : event) : M unit :=
  if is_directory ev then ret tt
  else
    let filepath := src_path ev in
    if negb (is_arcsec_related filepath) then ret tt
    else
      ok <- enforce_protection filepath (event_type ev) ;;
      if negb ok then
        if String.eqb (event_type ev) "modified" then restore_file filepath ;;; ret tt
        else if String.eqb (event_type ev) "deleted" then restore_file filepath ;;; ret tt
        else ret tt
      else ret tt.

End Injector.

(** ** Reading results, and the vocabulary of the statements *)

(** [v[k]] when [v] is a dict holding [k]. *)
Definition field (v : json) (k : string) : option json :=
  match v with
  | JObj o => o !! k
  | _ => None
  end.

(** The value stored under [k] in the dict an action returned. *)
Definition returned_field {A} (out : res json * A) (k : string) : option json :=
  match fst out with
  | inr v => field v k
  | inl _ => None
  end.

(** [fp.get(k)], and [fp.get("hashes", {}).get(k)], for an expected
    fingerprint that is a dict whose ["hashes"], when present, is a dict. *)
Definition expected_field (fp : json) (k : string) : json :=
  match field fp k with
  | Some x => x
  | None => JNull
  end.

Definition expected_hash (fp : json) (k : string) : json :=
  match field fp "hashes" with
  | Some h => expected_field h k
  | None => JNull
  end.


(** The file name carries the marker: ["arcsec" in filename.lower()]. *)
Definition has_marker (filepath : string) : bool :=
  Str.contains "arcsec" (Str.lower (PPath.name (PPath.Path filepath))).


(** ** A symbolic instance of the library

    File contents are sequences of characters and of whole JSON documents; a
    digest is a rendering of its input, and [json.load] gives back the
    document [json.dump] stored.  Quotients are kept as a pair, not
    computed.  The instance serves to evaluate the model on concrete
    worlds. *)

Module Toy.

Inductive chunk := Ch (c : ascii) | Doc (j : json).

Definition render (b : list chunk) : string :=
  Str.of_chars (map (fun x => match x with Ch c => c | Doc _ => "#"%char end) b).

Definition stamp (t : Z) : string := Str.pad6 (Z.to_nat t).

Definition lib : PyLib := {|
  bytes := list chunk;
  blen := fun b => Z.of_nat (List.length b);
  bcat := fun a b => a ++ b;
  encode := fun s => map Ch (Str.chars s);
  sha256_hex := fun b => "sha256:" +:+ render b;
  sha512_hex := fun b => "sha512:" +:+ render b;
  blake2b_hex := fun b => "blake2b:" +:+ render b;
  hmac_sha256_hex := fun k b => "hmac:" +:+ render b;
  pbkdf2_hmac_sha256 := fun p s _ => p ++ s;
  zlib_compress := fun b => b;
  truediv := fun a b => FFinite a (- b);
  fmul := fun f _ => f;
  json_dumps_sorted := fun j => [Doc j];
  json_dumps := fun _ => "{}";
  json_dump := fun j => [Doc j];
  json_load := fun b => match b with [Doc j] => inr j | _ => inl JSONDecodeError end;
  isoformat := stamp;
  strftime_ymd_hms := stamp;
  exn_str := fun _ => "error";
|}.

(** A world whose working directory is the root directory [entries]. *)
Definition world_of (entries : list (string * @node lib)) : @world lib :=
  mkWorld (Dir 0 entries) [] 0 (fun n => Z.of_nat (100 + n)) 0.

Definition text (s : string) : list chunk := map Ch (Str.chars s).

(** A regular file with the characters [s], modified at [mtime]. *)
Definition file (s : string) (mtime : Z) : @node lib := @File lib (text s) mtime mtime.

(** A regular file holding the JSON document [j]. *)
Definition doc (j : json) : @node lib := @File lib [Doc j] 0 0.

Definition dir (entries : list (string * @node lib)) : @node lib := @Dir lib 0 entries.

End Toy.

(** The value a dict display holds under [k]. *)
Fixpoint assoc (k : string) (l : list (string * json)) : option json :=
  match l with
  | [] => None
  | (k', v) :: rest => if String.eqb k k' then Some v else assoc k rest
  end.


(** The contents of the regular file [filepath] names, if it names one. *)
Definition file_content {L : PyLib} (w : world) (filepath : string) : option bytes :=
  match lookup_path w filepath with
  | inr (File c _ _) => Some c
  | _ => None
  end.

(** The world after one reading of the clock. *)
Definition tick {L : PyLib} (w : world) : world :=
  mkWorld (fs w) (cwd w) (S (ticks w)) (clock w) (violation_count w).


(** [manifest.get("file_fingerprints", {})] and
    [manifest.get("integrity_seal", {})] of a manifest that is a dict. *)
Definition manifest_fingerprints (m : json) : json :=
  match field m "file_fingerprints" with
  | Some f => f
  | None => Py.obj []
  end.

Definition stored_seal (m : json) : json :=
  match field m "integrity_seal" with
  | Some s => s
  | None => Py.obj []
  end.

(** The manifest is a dict and its seal is a dict. *)
Definition manifest_shaped (m : json) : Prop :=
  (exists o, m = JObj o) /\ (exists s, stored_seal m = JObj s).

(** The stored seal matches the seal recomputed from the fingerprint set:
    the stored [manifest_hash] and [integrity_seal] are the digest and the
    keyed code of the canonical serialisation of the fingerprints. *)
Definition seal_valid {L : PyLib} (m : json) : Prop :=
  manifest_shaped m /\
  field (stored_seal m) "manifest_hash" =
    Some (JStr (sha256_hex (json_dumps_sorted (manifest_fingerprints m)))) /\
  field (stored_seal m) "integrity_seal" =
    Some (JStr (hmac_sha256_hex secret_key (json_dumps_sorted (manifest_fingerprints m)))).

(** The manifest [m] with the field [k] of its stored seal set to [v]; the
    fingerprints and everything else are left as they are. *)
Definition set_seal_field (m : json) (k : string) (v : json) : json :=
  match m, stored_seal m with
  | JObj o, JObj s => JObj (<["integrity_seal" := JObj (<[k := v]> s)]> o)
  | _, _ => m
  end.

(** The dict [save_manifest] stores under ["manifest_metadata"], when it
    starts in the world [w]. *)
Definition manifest_metadata {L : PyLib} (w : world) (output_file : string) : json :=
  Py.obj [
    ("saved", JStr (isoformat (clock w (ticks w))));
    ("filename", JStr output_file);
    ("format_version", JStr "1.0");
    ("encoding", JStr "UTF-8");
    ("compression", JStr "none");
    ("digital_signature", JStr digital_signature)].

(** The manifest [o] as [save_manifest] leaves it. *)
Definition with_metadata {L : PyLib} (w : world) (output_file : string)
    (o : gmap string json) : json :=
  JObj (<["manifest_metadata" := manifest_metadata w output_file]> o).

(** The string has no path separator. *)
Definition no_slash (s : string) : Prop := ~ In "/"%char (Str.chars s).

(** ** Concrete worlds, on the symbolic library *)

Module Examples.

Import Toy.

(** A working directory holding one protected file. *)
Definition w_tracked : @world lib :=
  world_of [("arcsec_x.py", file "hello" 5)].

(** What an action returned, or [None] when it raised. *)
Definition value {A} (out : res A * @world lib) : A -> A :=
  fun d => match fst out with inr a => a | inl _ => d end.

(** The manifest a scan of that directory builds. *)
Definition manifest0 : json :=
  value (scan_arcsec_files (L := lib) "." w_tracked) JNull.



(** A manifest that tracks the file under the keyed code of another key:
    the digests and the size are those of the file. *)
Definition manifest_other_key : json :=
  Py.obj [
    ("file_fingerprints", Py.obj [
       ("arcsec_x.py", Py.obj [
          ("size", JInt 5);
          ("hashes", Py.obj [
             ("sha256", JStr (sha256_hex (PyLib := lib) (text "hello")));
             ("sha512", JStr (sha512_hex (PyLib := lib) (text "hello")));
             ("blake2b", JStr (blake2b_hex (PyLib := lib) (text "hello")))]);
          ("hmac_signature", JStr "0f0f0f0f")])])].

Definition w_other_key : @world lib :=
  world_of [("arcsec_x.py", file "hello" 5);
            ("ARCSEC_FINGERPRINT_MANIFEST.json", doc manifest_other_key)].

(** A directory with a file whose name has the marker inside it. *)
Definition w_names : @world lib :=
  world_of [("arcsec_a.py", file "a" 1); ("my_arcsec.py", file "b" 2)].

(** The world after the action [m]. *)
Definition after {A} (m : @M lib A) (w : @world lib) : @world lib := snd (m w).

(** The file [name] of the working directory replaced from outside by a
    copy that keeps its own modification time (as [cp -p] or the
    extraction of an archive does). *)
Definition put_file (w : @world lib) (name content : string) (mtime : Z) : @world lib :=
  match fs_put 0 (fs w) [name] (file content mtime) with
  | Some n => mkWorld n (cwd w) (ticks w) (clock w) (violation_count w)
  | None => w
  end.

(** Three backups of [arcsec_x.py], taken one after the other; between
    them the file is replaced by copies with earlier modification
    times.  Then the file is overwritten. *)
Definition w_b0 : @world lib := world_of [("arcsec_x.py", file "v1" 30)].
Definition w_b1 : @world lib := after (backup_file "arcsec_x.py") w_b0.
Definition w_b2 : @world lib :=
  after (backup_file "arcsec_x.py") (put_file w_b1 "arcsec_x.py" "v2" 20).
Definition w_b3 : @world lib :=
  after (backup_file "arcsec_x.py") (put_file w_b2 "arcsec_x.py" "v3" 10).
Definition w_overwritten : @world lib := put_file w_b3 "arcsec_x.py" "overwritten" 90.

(** The manifest [manifest0] is on disk and the file it tracks has been
    deleted. *)
Definition w_deleted : @world lib :=
  world_of [("ARCSEC_FINGERPRINT_MANIFEST.json", doc manifest0)].


End Examples.

(** ** Further vocabulary *)

(** The world [w'] has the file system, the working directory, the clock
    and the violation counter of [w]; only clock readings were consumed. *)
Definition same_store {L : PyLib} (w w' : world) : Prop :=
  fs w' = fs w /\ cwd w' = cwd w /\ clock w' = clock w /\
  violation_count w' = violation_count w /\ ticks w <= ticks w'.

(** An action that writes nothing, whatever it returns or raises. *)
Definition read_only {L : PyLib} {A} (m : M A) : Prop :=
  forall w, same_store w (snd (m w)).

(** The seal [generate_integrity_seal] computes when the clock reads [t]. *)
Definition seal_at {L : PyLib} (fingerprints : json) (t : Z) : json :=
  let manifest_hash := sha256_hex (json_dumps_sorted fingerprints) in
  Py.obj [
    ("manifest_hash", JStr manifest_hash);
    ("integrity_seal", JStr (hmac_sha256_hex secret_key (json_dumps_sorted fingerprints)));
    ("timestamp", JStr (isoformat t));
    ("timestamp_proof",
       JStr (hmac_sha256_hex secret_key (encode (manifest_hash +:+ ":" +:+ isoformat t))));
    ("sealed_by", JStr (creator +:+ " - ARCSEC v" +:+ version));
    ("verification_status", JStr "CRYPTOGRAPHICALLY_SEALED")].

(** ** A second symbolic instance, whose digests tell documents apart

    As [Toy.lib], except that a digest renders a document that is a string
    by that string. *)

Module Toy2.

Definition render (b : list Toy.chunk) : string :=
  Str.of_chars
    (flat_map (fun x => match x with
                        | Toy.Ch c => [c]
                        | Toy.Doc (JStr s) => Str.chars s
                        | Toy.Doc _ => ["#"%char]
                        end) b).

Definition lib : PyLib := {|
  bytes := list Toy.chunk;
  blen := fun b => Z.of_nat (List.length b);
  bcat := fun a b => a ++ b;
  encode := fun s => map Toy.Ch (Str.chars s);
  sha256_hex := fun b => "sha256:" +:+ render b;
  sha512_hex := fun b => "sha512:" +:+ render b;
  blake2b_hex := fun b => "blake2b:" +:+ render b;
  hmac_sha256_hex := fun k b => "hmac:" +:+ render b;
  pbkdf2_hmac_sha256 := fun p s _ => p ++ s;
  zlib_compress := fun b => b;
  truediv := fun a b => FFinite a (- b);
  fmul := fun f _ => f;
  json_dumps_sorted := fun j => [Toy.Doc j];
  json_dumps := fun _ => "{}";
  json_dump := fun j => [Toy.Doc j];
  json_load := fun b => match b with [Toy.Doc j] => inr j | _ => inl JSONDecodeError end;
  isoformat := Toy.stamp;
  strftime_ymd_hms := Toy.stamp;
  exn_str := fun _ => "error";
|}.

(** A manifest whose fingerprint set is the string ["original"], sealed. *)
Definition sealed : gmap string json :=
  list_to_map [("file_fingerprints", JStr "original");
               ("integrity_seal", seal_at (L := lib) (JStr "original") 0)].

(** An empty working directory. *)
Definition w_empty : @world lib :=
  mkWorld (@Dir lib 0 []) [] 0 (fun n => Z.of_nat n) 0.

End Toy2.





(** The working directory exists and its entry [name] is not a directory, so
    that a file of that name can be created or overwritten there. *)
Definition writable_here {L : PyLib} (w : world) (name : string) : Prop :=
  is_dir (fs_get (fs w) (cwd w)) = true /\
  is_dir (fs_get (fs w) (cwd w ++ [name])) = false.

(** A file name proper: not empty, without separator, neither [.] nor [..]. *)
Definition simple_name (name : string) : Prop :=
  no_slash name /\ name <> "" /\ name <> "." /\ name <> "..".

(** The record [log_violation] writes when the counter reaches [count] and
    the clock reads [t], and the line it adds to the log. *)
Definition violation_entry {L : PyLib} (count : nat) (t : Z)
    (violation_type filepath : string) (details action : json) : json :=
  Py.obj [
    ("timestamp", JStr (isoformat t));
    ("violation_id", JStr ("ARCSEC-" +:+ Str.pad6 count));
    ("type", JStr violation_type);
    ("filepath", JStr filepath);
    ("details", details);
    ("enforcement_action", action);
    ("war_mode", JBool war_mode);
    ("digital_signature", JStr digital_signature)].

Definition log_line {L : PyLib} (entry : json) : bytes :=
  encode (json_dumps entry +:+ newline).

(** The contents of the log after [line] is added to what it held. *)
Definition log_after {L : PyLib} (w : world) (line : bytes) : bytes :=
  match file_content w violation_log with
  | Some old => bcat old line
  | None => line
  end.

(** [details.get("action", "UNKNOWN")] for a dict [details]. *)
Definition action_of (details : json) : json :=
  match field details "action" with
  | Some a => a
  | None => JStr "UNKNOWN"
  end.



(** The name [backup_file] gives the snapshot of the file [filename] taken
    when the formatted time is [timestamp] (line 239), and the pattern with
    which [restore_file] looks for the snapshots of [filename] (line 257). *)
Definition snapshot_name (filename timestamp : string) : string :=
  filename +:+ "." +:+ timestamp +:+ ".backup".



(** ** Worlds for the handler

    The file the manifest [Examples.manifest_other_key] tracks has been
    modified; one snapshot of it is, or is not, in the backup directory. *)

Module Tamper.

Import Toy.



End Tamper.
(** ** Lemmas on strings and on dict displays *)

#[local] Arguments String.append _ _ : simpl nomatch.

Lemma lookup_obj (l : list (string * json)) (k : string) :
  (list_to_map l : gmap string json) !! k = assoc k l.
Proof.
  induction l as [|[k' v] l IH]; simpl.
  - apply lookup_empty.
  - destruct (String.eqb_spec k k') as [->|Hne].
    + apply lookup_insert_eq.
    + rewrite lookup_insert_ne by congruence. exact IH.
Qed.

Lemma field_obj l k : field (Py.obj l) k = assoc k l.
Proof. apply lookup_obj. Qed.

Lemma getitem_obj l k :
  Py.getitem (Py.obj l) k =
  match assoc k l with Some x => inr x | None => inl (KeyError k) end.
Proof. unfold Py.getitem, Py.obj. now rewrite lookup_obj. Qed.

Lemma get_obj l k d :
  Py.get (Py.obj l) k d = inr (match assoc k l with Some x => x | None => d end).
Proof. unfold Py.get, Py.obj. now rewrite lookup_obj. Qed.

Lemma contains_obj l k :
  Py.contains k (Py.obj l) = inr (match assoc k l with Some _ => true | None => false end).
Proof.
  unfold Py.contains, Py.obj. rewrite lookup_obj.
  destruct (assoc k l).
  - rewrite bool_decide_eq_true_2; eauto.
  - rewrite bool_decide_eq_false_2; [reflexivity | intros [? ?]; discriminate].
Qed.

Lemma prefix_app (p s : string) :
  String.prefix p s = true <-> exists r, s = p +:+ r.
Proof.
  revert s. induction p as [|c p IH]; intros s; simpl.
  - split; [intros _; now exists s | now destruct s].
  - destruct s as [|d s].
    + split; [discriminate | intros [r Hr]; discriminate].
    + simpl. destruct (Ascii.ascii_dec c d) as [->|Hne].
      * rewrite IH. split; intros [r Hr]; exists r; [now rewrite Hr | now injection Hr].
      * split; [discriminate | intros [r Hr]; injection Hr; congruence].
Qed.




Lemma lower_app (a b : string) : Str.lower (a +:+ b) = Str.lower a +:+ Str.lower b.
Proof. induction a as [|c a IH]; simpl; [reflexivity | now rewrite IH]. Qed.

Lemma scan_selects_lower (file : string) :
  scan_selects file = true -> Str.startswith (Str.lower file) "arcsec" = true.
Proof.
  unfold scan_selects, Str.startswith. intros H.
  apply orb_true_iff in H. apply prefix_app.
  destruct H as [H|H]; apply prefix_app in H as [r ->];
    rewrite lower_app; now exists (Str.lower r).
Qed.

(** ** The naming validator *)









(** ** Paths: [Path(p)] and [p] name the same file *)

Lemma split_on_no_slash (s : string) : Forall no_slash (Str.split_on "/" s).
Proof.
  induction s as [|c s IH]; cbn [Str.split_on].
  - constructor; [|constructor]. intros [].
  - destruct (Ascii.eqb_spec c "/") as [->|Hne].
    + constructor; [intros []|exact IH].
    + destruct (Str.split_on "/" s) as [|x xs].
      * constructor; [|constructor]. unfold no_slash. cbn. intuition.
      * inversion IH as [|? ? Hx Hxs]; subst. constructor; [|assumption].
        unfold no_slash in *. cbn. intros [H|H]; [congruence|contradiction].
Qed.

Lemma split_on_nonempty (s : string) : Str.split_on "/" s <> [].
Proof.
  destruct s as [|c s]; cbn [Str.split_on]; [discriminate|].
  destruct (Ascii.eqb c "/"); [discriminate|].
  destruct (Str.split_on "/" s); discriminate.
Qed.

Lemma split_on_literal (x : string) : no_slash x -> Str.split_on "/" x = [x].
Proof.
  induction x as [|c x IH]; intros Hx; cbn [Str.split_on]; [reflexivity|].
  destruct (Ascii.eqb_spec c "/") as [->|Hne].
  - exfalso. apply Hx. now left.
  - rewrite IH; [reflexivity|]. intros H. apply Hx. now right.
Qed.

Lemma split_on_app (x s : string) :
  no_slash x -> Str.split_on "/" (x +:+ String "/" s) = x :: Str.split_on "/" s.
Proof.
  induction x as [|c x IH]; intros Hx.
  - reflexivity.
  - change (String c x +:+ String "/" s) with (String c (x +:+ String "/" s)).
    cbn [Str.split_on].
    destruct (Ascii.eqb_spec c "/") as [->|Hne].
    + exfalso. apply Hx. now left.
    + rewrite IH; [reflexivity|]. intros H. apply Hx. now right.
Qed.

Lemma split_on_join (l : list string) :
  l <> [] -> Forall no_slash l -> Str.split_on "/" (Str.join "/" l) = l.
Proof.
  induction l as [|x l IH]; [congruence|]. intros _ Hl.
  inversion Hl as [|? ? Hx Hl']; subst.
  destruct l as [|y l].
  - now apply split_on_literal.
  - change (Str.join "/" (x :: y :: l)) with (x +:+ String "/" (Str.join "/" (y :: l))).
    rewrite split_on_app by assumption. now rewrite IH.
Qed.

Lemma resolve_from_filter {L : PyLib} (root : node) (comps stack : list string) :
  resolve_from root stack (List.filter PPath.keep comps) = resolve_from root stack comps.
Proof.
  revert stack. induction comps as [|c comps IH]; intros stack; [reflexivity|].
  cbn [List.filter resolve_from]. unfold PPath.keep.
  destruct (String.eqb c "") eqn:E1; cbn [negb andb orb]; [apply IH|].
  destruct (String.eqb c ".") eqn:E2; cbn [negb andb orb]; [apply IH|].
  cbn [resolve_from]. rewrite E1, E2. cbn [orb].
  destruct (fs_get root stack) as [[]|]; try reflexivity.
  destruct (String.eqb c ".."); apply IH.
Qed.

Lemma parts_spec (p : string) :
  Forall (fun x => no_slash x /\ x <> "") (PPath.parts (PPath.Path p)).
Proof.
  cbn [PPath.parts PPath.Path]. apply List.Forall_forall. intros x Hx.
  apply filter_In in Hx as [Hin Hk]. split.
  - pose proof (split_on_no_slash p) as Hs.
    rewrite List.Forall_forall in Hs. now apply Hs.
  - intros ->. discriminate.
Qed.

Lemma join_head (x : string) (l : list string) :
  exists r, Str.join "/" (x :: l) = x +:+ r.
Proof.
  destruct l as [|y l].
  - exists "". cbn [Str.join].
    induction x as [|c x IH]; simpl; [reflexivity | now f_equal].
  - now eexists.
Qed.

Lemma startswith_cons (c d : ascii) (s : string) :
  Str.startswith (String c s) (String d "") = Ascii.eqb c d.
Proof.
  unfold Str.startswith. cbn [String.prefix].
  destruct (Ascii.ascii_dec d c) as [->|Hne].
  - rewrite Ascii.eqb_refl. now destruct s.
  - symmetry. apply Ascii.eqb_neq. congruence.
Qed.

Lemma resolve_Path {L : PyLib} (w : world) (p : string) :
  p <> "" -> resolve w (PPath.to_str (PPath.Path p)) = resolve w p.
Proof.
  intros Hp. pose proof (parts_spec p) as Hparts.
  assert (Hns : Forall no_slash (PPath.parts (PPath.Path p))).
  { eapply Forall_impl; [exact Hparts|]. now intros ? [? _]. }
  unfold resolve at 2. rewrite (proj2 (String.eqb_neq p "") Hp).
  rewrite <- resolve_from_filter.
  change (List.filter PPath.keep (Str.split_on "/" p)) with (PPath.parts (PPath.Path p)).
  unfold PPath.to_str. cbn [PPath.anchored PPath.Path].
  destruct (Str.startswith p "/") eqn:Ha.
  - unfold resolve.
    change ("/" +:+ ?s) with (String "/" s).
    rewrite startswith_cons. cbn [String.eqb Ascii.eqb Bool.eqb Str.split_on].
    cbn [resolve_from String.eqb orb].
    destruct (PPath.parts (PPath.Path p)) as [|x l] eqn:E; [reflexivity|].
    rewrite split_on_join; [reflexivity|discriminate|assumption].
  - destruct (PPath.parts (PPath.Path p)) as [|x l] eqn:E; [reflexivity|].
    inversion Hparts as [|? ? [Hx Hne] Hl]; subst.
    destruct (join_head x l) as [r Hr].
    destruct x as [|c x]; [congruence|].
    assert (Hc : Ascii.eqb c "/" = false).
    { apply Ascii.eqb_neq. intros ->. apply Hx. now left. }
    unfold resolve. rewrite Hr.
    change (String c x +:+ r) with (String c (x +:+ r)).
    rewrite startswith_cons, Hc. cbn [String.eqb].
    change (String c (x +:+ r)) with (String c x +:+ r).
    rewrite <- Hr. rewrite split_on_join; [reflexivity|discriminate|assumption].
Qed.

Lemma lookup_path_Path {L : PyLib} (w : world) (p : string) :
  p <> "" -> lookup_path w (PPath.to_str (PPath.Path p)) = lookup_path w p.
Proof. intros Hp. unfold lookup_path. now rewrite resolve_Path. Qed.

Lemma lookup_path_empty {L : PyLib} (w : world) : lookup_path w "" = inl FileNotFoundError.
Proof. reflexivity. Qed.

(** ** Fingerprints and their verification *)

Ltac run :=
  cbv beta iota zeta delta
    [bind ret raise lift get_world try_except now set_fs and_then
     read_bytes stat path_exists os_path_exists].

Ltac run_obj :=
  rewrite ?getitem_obj, ?get_obj, ?contains_obj;
  cbn [assoc String.eqb Ascii.eqb Bool.eqb rbind]; run.

Lemma str_eq_true (s : string) (v : json) : Py.str_eq s v = true <-> v = JStr s.
Proof.
  destruct v; cbn; try (split; [discriminate | congruence]).
  rewrite String.eqb_eq. split; congruence.
Qed.

Lemma file_content_lookup {L : PyLib} (w : world) (p : string) (c : bytes) :
  file_content w p = Some c -> exists mt ct, lookup_path w p = inr (File c mt ct).
Proof.
  unfold file_content. intros H.
  destruct (lookup_path w p) as [|[c' mt ct|]]; try discriminate.
  injection H as ->. eauto.
Qed.

Lemma calculate_file_hash_file {L : PyLib} (w : world) (p : string) c mt ct :
  lookup_path w p = inr (File c mt ct) ->
  exists l,
    calculate_file_hash p w = (inr (Py.obj l), tick w) /\
    assoc "error" l = None /\
    assoc "hashes" l = Some (Py.obj [("sha256", JStr (sha256_hex c));
                                     ("sha512", JStr (sha512_hex c));
                                     ("blake2b", JStr (blake2b_hex c))]) /\
    assoc "hmac_signature" l = Some (JStr (hmac_sha256_hex secret_key c)) /\
    assoc "size" l = Some (JInt (blen c)).
Proof.
  intros H.
  assert (Hp : p <> "") by (intros ->; rewrite lookup_path_empty in H; discriminate).
  unfold calculate_file_hash. run.
  rewrite (lookup_path_Path w p Hp), H. cbn [negb]. run.
  rewrite H. run. rewrite (lookup_path_Path w p Hp), H. run.
  eexists. split; [reflexivity|]. repeat split; reflexivity.
Qed.

Lemma calculate_file_hash_nofile {L : PyLib} (w : world) (p : string) :
  file_content w p = None ->
  exists msg, calculate_file_hash p w = (inr (Py.obj [("error", JStr msg)]), w).
Proof.
  unfold file_content. intros H.
  unfold calculate_file_hash. run.
  destruct (lookup_path w (PPath.to_str (PPath.Path p))) as [e|n]; cbn [negb]; cbv iota.
  - eauto.
  - destruct (lookup_path w p) as [e'|[c mt ct|mt es]]; [eauto|discriminate|eauto].
Qed.









(** ** The manifest seal *)

Lemma field_get (o : gmap string json) (k : string) (d : json) :
  Py.get (JObj o) k d = inr (match field (JObj o) k with Some x => x | None => d end).
Proof. reflexivity. Qed.

Lemma eq_str_field (s : string) (o : gmap string json) (k : string) :
  Py.eq (JStr s) (match o !! k with Some x => x | None => JNull end) = true
  <-> o !! k = Some (JStr s).
Proof.
  cbn [Py.eq]. rewrite str_eq_true.
  destruct (o !! k); split; congruence.
Qed.

Lemma verify_manifest_integrity_shaped {L : PyLib} (m : json) (w : world) :
  manifest_shaped m ->
  exists l (ok : bool),
    verify_manifest_integrity m w = (inr (Py.obj l), tick (tick w)) /\
    (ok = true <-> seal_valid m) /\
    assoc "verified" l = Some (JBool ok) /\
    assoc "status" l =
      Some (JStr (if ok then "MANIFEST_VERIFIED" else "MANIFEST_TAMPERED")).
Proof.
  intros Hsh. pose proof Hsh as [[o ->] [s Hs]].
  unfold verify_manifest_integrity, generate_integrity_seal. run.
  rewrite !field_get.
  change (match field (JObj o) "integrity_seal" with Some x => x | None => Py.obj [] end)
    with (stored_seal (JObj o)).
  change (match field (JObj o) "file_fingerprints" with Some x => x | None => Py.obj [] end)
    with (manifest_fingerprints (JObj o)).
  rewrite Hs. repeat progress run_obj.
  set (h := sha256_hex _). set (hm := hmac_sha256_hex _ _).
  assert (Hv : seal_valid (JObj o) <->
               s !! "manifest_hash" = Some (JStr h) /\ s !! "integrity_seal" = Some (JStr hm)).
  { unfold seal_valid. rewrite Hs. cbn [field]. subst h hm. tauto. }
  unfold Py.get. run.
  destruct (Py.eq (JStr h) _) eqn:E1; run.
  - destruct (Py.eq (JStr hm) _) eqn:E2; run;
      eexists; eexists; (split; [reflexivity|]); (split; [|split; reflexivity]);
      rewrite Hv, <- !eq_str_field, E1, E2; intuition congruence.
  - eexists; exists false; (split; [reflexivity|]); (split; [|split; reflexivity]).
    rewrite Hv, <- !eq_str_field, E1. intuition congruence.
Qed.

Lemma verify_manifest_integrity_unshaped {L : PyLib} (m : json) (w : world) :
  ~ manifest_shaped m ->
  exists msg w',
    verify_manifest_integrity m w =
    (inr (Py.obj [("verified", JBool false);
                  ("status", JStr "VERIFICATION_ERROR");
                  ("error", JStr msg)]), w').
Proof.
  intros Hn. unfold verify_manifest_integrity, generate_integrity_seal. run.
  destruct m as [| | | | | |o]; try (cbn [Py.get]; run; do 2 eexists; reflexivity).
  rewrite !field_get.
  change (match field (JObj o) "integrity_seal" with Some x => x | None => Py.obj [] end)
    with (stored_seal (JObj o)).
  run. repeat progress run_obj.
  destruct (stored_seal (JObj o)) as [| | | | | |s] eqn:Hs;
    try (cbn [Py.get]; run; do 2 eexists; reflexivity).
  exfalso. apply Hn. split; eauto.
Qed.

Lemma manifest_shaped_dec (m : json) : manifest_shaped m \/ ~ manifest_shaped m.
Proof.
  unfold manifest_shaped.
  destruct m; try (right; intros [[? ?] _]; discriminate).
  destruct (stored_seal (JObj o)); try (right; intros [_ [? ?]]; discriminate).
  left. eauto.
Qed.

Lemma verify_manifest_integrity_result {L : PyLib} (m : json) (w : world) :
  exists l w' (ok : bool),
    verify_manifest_integrity m w = (inr (Py.obj l), w') /\
    (ok = true <-> seal_valid m) /\
    assoc "verified" l = Some (JBool ok) /\
    (assoc "status" l = Some (JStr "MANIFEST_VERIFIED") <-> ok = true) /\
    (manifest_shaped m -> ok = false ->
     assoc "status" l = Some (JStr "MANIFEST_TAMPERED")).
Proof.
  destruct (manifest_shaped_dec m) as [Hs|Hn].
  - destruct (verify_manifest_integrity_shaped m w Hs) as (l & ok & Hv & Hok & Hver & Hst).
    exists l, (tick (tick w)), ok. rewrite Hst.
    split; [exact Hv|]. split; [exact Hok|]. split; [exact Hver|]. split.
    + destruct ok; split; congruence.
    + now intros _ ->.
  - destruct (verify_manifest_integrity_unshaped m w Hn) as (msg & w' & Hv).
    eexists _, w', false. split; [exact Hv|].
    split; [|split; [reflexivity|split]].
    + split; [discriminate|]. intros [Hs _]. contradiction.
    + split; discriminate.
    + contradiction.
Qed.

Lemma verify_manifest_integrity_verified {L : PyLib} (m : json) (w : world) :
  returned_field (verify_manifest_integrity m w) "status" = Some (JStr "MANIFEST_VERIFIED")
  <-> seal_valid m.
Proof.
  destruct (verify_manifest_integrity_result m w) as (l & w' & ok & Hv & Hok & _ & Hst & _).
  unfold returned_field. rewrite Hv. cbn [fst]. rewrite field_obj, Hst. exact Hok.
Qed.



Lemma set_seal_field_shape (m : json) (k : string) (v : json) :
  manifest_shaped m ->
  exists s,
    stored_seal m = JObj s /\
    stored_seal (set_seal_field m k v) = JObj (<[k := v]> s) /\
    manifest_fingerprints (set_seal_field m k v) = manifest_fingerprints m /\
    manifest_shaped (set_seal_field m k v).
Proof.
  intros [[o ->] [s Hs]]. exists s. split; [exact Hs|].
  unfold set_seal_field. rewrite Hs.
  assert (H1 : stored_seal (JObj (<["integrity_seal" := JObj (<[k := v]> s)]> o))
               = JObj (<[k := v]> s)).
  { unfold stored_seal, field. now rewrite lookup_insert_eq. }
  split; [exact H1|]. split.
  - unfold manifest_fingerprints, field. now rewrite lookup_insert_ne.
  - split; eauto.
Qed.

(** C3, as amended.  For a stored manifest whose seal verifies, changing
    the seal's [manifest_hash] or its [integrity_seal] to a different value,
    the fingerprints left as they are, makes [verify_manifest_integrity]
    return MANIFEST_TAMPERED; changing its [timestamp] or its
    [timestamp_proof] leaves the result MANIFEST_VERIFIED. *)
Theorem seal_field_change {L : PyLib}
    (m : json) (w w' : world) (k : string) (v : json) :
  returned_field (verify_manifest_integrity m w) "status"
    = Some (JStr "MANIFEST_VERIFIED") ->
  field (stored_seal m) k <> Some v ->
  (k = "manifest_hash" \/ k = "integrity_seal" ->
   returned_field (verify_manifest_integrity (set_seal_field m k v) w') "status"
     = Some (JStr "MANIFEST_TAMPERED")) /\
  (k = "timestamp" \/ k = "timestamp_proof" ->
   returned_field (verify_manifest_integrity (set_seal_field m k v) w') "status"
     = Some (JStr "MANIFEST_VERIFIED")).
Proof.
  intros Hok Hdiff. apply verify_manifest_integrity_verified in Hok.
  destruct Hok as (Hsh & Hh & Hs).
  destruct (set_seal_field_shape m k v Hsh) as (s & Hseal & Hseal' & Hfp & Hsh').
  rewrite Hseal in Hh, Hs, Hdiff. cbn [field] in Hh, Hs, Hdiff.
  split.
  - intros Hk.
    destruct (verify_manifest_integrity_shaped (set_seal_field m k v) w' Hsh')
      as (l & ok & Hv & Hval & _ & Hst).
    unfold returned_field. rewrite Hv. cbn [fst]. rewrite field_obj, Hst.
    destruct ok; [|reflexivity]. exfalso.
    destruct (proj1 Hval eq_refl) as (_ & Hh' & Hs').
    rewrite Hseal', Hfp in Hh', Hs'. cbn [field] in Hh', Hs'.
    destruct Hk as [-> | ->].
    + rewrite lookup_insert_eq in Hh'. congruence.
    + rewrite lookup_insert_eq in Hs'. congruence.
  - intros Hk. apply verify_manifest_integrity_verified.
    split; [exact Hsh'|]. rewrite Hseal', Hfp. cbn [field].
    destruct Hk as [-> | ->]; rewrite !lookup_insert_ne by discriminate; now split.
Qed.

Lemma seal_field_change_witness :
  returned_field
    (verify_manifest_integrity (L := Toy.lib)
       (set_seal_field Examples.manifest0 "manifest_hash" (JStr "0000")) Examples.w_tracked)
    "status" = Some (JStr "MANIFEST_TAMPERED") /\
  returned_field
    (verify_manifest_integrity (L := Toy.lib)
       (set_seal_field Examples.manifest0 "timestamp_proof" (JStr "0000")) Examples.w_tracked)
    "status" = Some (JStr "MANIFEST_VERIFIED").
Proof.
  split.
  - apply (seal_field_change (L := Toy.lib) Examples.manifest0 Examples.w_tracked
             Examples.w_tracked "manifest_hash" (JStr "0000")).
    + vm_compute. reflexivity.
    + vm_compute. discriminate.
    + now left.
  - apply (seal_field_change (L := Toy.lib) Examples.manifest0 Examples.w_tracked
             Examples.w_tracked "timestamp_proof" (JStr "0000")).
    + vm_compute. reflexivity.
    + vm_compute. discriminate.
    + now right.
Defined.

(** C3, as stated, fails: on a manifest whose seal verifies, a changed
    [timestamp] is not detected. *)
Lemma changed_timestamp_still_verified :
  returned_field (verify_manifest_integrity (L := Toy.lib) Examples.manifest0
                    Examples.w_tracked) "status" = Some (JStr "MANIFEST_VERIFIED") /\
  field (stored_seal Examples.manifest0) "timestamp" = Some (JStr "000102") /\
  manifest_fingerprints (set_seal_field Examples.manifest0 "timestamp" (JStr "1999-01-01"))
    = manifest_fingerprints Examples.manifest0 /\
  field (stored_seal (set_seal_field Examples.manifest0 "timestamp" (JStr "1999-01-01")))
    "timestamp" = Some (JStr "1999-01-01") /\
  returned_field
    (verify_manifest_integrity (L := Toy.lib)
       (set_seal_field Examples.manifest0 "timestamp" (JStr "1999-01-01"))
       Examples.w_tracked) "status" = Some (JStr "MANIFEST_VERIFIED").
Proof. repeat split; vm_compute; reflexivity. Qed.

(** ** The file system: reading what was written *)

Section FsLemmas.

Context {L : PyLib}.

Lemma alist_get_set_eq k (n : node) es : alist_get k (alist_set k n es) = Some n.
Proof.
  induction es as [|[k' n'] es IH]; cbn [alist_set alist_get].
  - now rewrite String.eqb_refl.
  - destruct (String.eqb k k') eqn:E; cbn [alist_get]; rewrite ?String.eqb_refl, ?E; auto.
Qed.

Lemma alist_get_set_ne k k' (n : node) es :
  k <> k' -> alist_get k' (alist_set k n es) = alist_get k' es.
Proof.
  intros Hne. induction es as [|[k0 n0] es IH]; cbn [alist_set alist_get].
  - now rewrite (proj2 (String.eqb_neq k' k)) by congruence.
  - destruct (String.eqb_spec k k0) as [->|Hk]; cbn [alist_get].
    + now rewrite (proj2 (String.eqb_neq k' k0)) by congruence.
    + now rewrite IH.
Qed.

Lemma fs_get_put_same t (n n' : node) (q : list string) (new : node) :
  fs_put t n q new = Some n' -> fs_get n' q = Some new.
Proof.
  revert n n'. induction q as [|c q IH]; intros n n' H.
  - cbn in H. injection H as ->. reflexivity.
  - cbn [fs_put] in H. destruct n as [|mt es]; [discriminate|].
    destruct q as [|c' q'].
    + injection H as <-. cbn [fs_get]. now rewrite alist_get_set_eq.
    + destruct (alist_get c es) as [child|] eqn:Hc; [|discriminate].
      destruct (fs_put t child (c' :: q') new) as [child'|] eqn:Hp; [|discriminate].
      injection H as <-. cbn [fs_get]. rewrite alist_get_set_eq.
      apply (IH _ _ Hp).
Qed.

(** Storing a node where no directory was keeps every directory. *)
Lemma fs_put_keeps_dirs t (n n' : node) (q : list string) (new : node) :
  fs_put t n q new = Some n' ->
  is_dir (fs_get n q) = false ->
  forall path, is_dir (fs_get n path) = true -> is_dir (fs_get n' path) = true.
Proof.
  revert n n'. induction q as [|c q IH]; intros n n' H Hnd path Hd.
  - cbn in Hnd. destruct path as [|x path].
    + cbn in Hd. congruence.
    + cbn [fs_get] in Hd. destruct n as [|mt es]; [discriminate|].
      cbn in Hnd. discriminate.
  - cbn [fs_put] in H. destruct n as [|mt es]; [discriminate|].
    destruct path as [|x path].
    + destruct q as [|c' q'].
      * injection H as <-. reflexivity.
      * destruct (alist_get c es) as [child|]; [|discriminate].
        destruct (fs_put t child (c' :: q') new); [|discriminate].
        injection H as <-. reflexivity.
    + cbn [fs_get] in Hd, Hnd.
      destruct q as [|c' q'].
      * injection H as <-. cbn [fs_get].
        destruct (String.eqb_spec c x) as [->|Hne].
        -- rewrite alist_get_set_eq.
           destruct (alist_get x es) as [child|] eqn:Hc; [|discriminate].
           cbn [fs_get] in Hnd. destruct child; [|discriminate].
           destruct path; cbn in Hd; discriminate.
        -- now rewrite alist_get_set_ne.
      * destruct (alist_get c es) as [child|] eqn:Hc; [|discriminate].
        destruct (fs_put t child (c' :: q') new) as [child'|] eqn:Hp; [|discriminate].
        injection H as <-. cbn [fs_get].
        destruct (String.eqb_spec c x) as [->|Hne].
        -- rewrite alist_get_set_eq. rewrite Hc in Hd.
           apply (IH _ _ Hp Hnd _ Hd).
        -- now rewrite alist_get_set_ne.
Qed.

Lemma resolve_from_keeps (root root' : node) (comps stack q : list string) :
  (forall path, is_dir (fs_get root path) = true -> is_dir (fs_get root' path) = true) ->
  resolve_from root stack comps = inr q ->
  resolve_from root' stack comps = inr q.
Proof.
  intros Hk. revert stack. induction comps as [|c comps IH]; intros stack H; [exact H|].
  cbn [resolve_from] in *.
  destruct (String.eqb c "" || String.eqb c "."); [now apply IH|].
  destruct (fs_get root stack) as [[|mt es]|] eqn:Hg; try discriminate.
  specialize (Hk stack). rewrite Hg in Hk. specialize (Hk eq_refl).
  destruct (fs_get root' stack) as [[|mt' es']|]; try discriminate.
  destruct (String.eqb c ".."); now apply IH.
Qed.


End FsLemmas.

(** ** Saving and loading a manifest *)




(** ** The content check of the enforcement engine *)






(** ** The scan *)

Lemma calculate_file_hash_total {L : PyLib} (w : world) (p : string) :
  exists fp w', calculate_file_hash p w = (inr fp, w') /\ fs w' = fs w /\ cwd w' = cwd w.
Proof.
  destruct (file_content w p) as [c|] eqn:Hfc.
  - unfold file_content in Hfc.
    destruct (lookup_path w p) as [|[c' mt ct|]] eqn:Hl; try discriminate.
    destruct (calculate_file_hash_file w p c' mt ct Hl) as (l & Hc & _).
    eexists _, _. split; [exact Hc|]. split; reflexivity.
  - destruct (calculate_file_hash_nofile w p Hfc) as [msg Hc].
    eexists _, _. split; [exact Hc|]. split; reflexivity.
Qed.

Lemma scan_fold {L : PyLib} (l : list string) (init : gmap string json) (w : world) :
  exists fps w',
    foldM (fun (fps : gmap string json) filepath =>
             fingerprint <- calculate_file_hash filepath ;;
             ret (<[filepath := fingerprint]> fps)) l init w = (inr fps, w') /\
    forall k, is_Some (fps !! k) <-> In k l \/ is_Some (init !! k).
Proof.
  revert init w. induction l as [|p l IH]; intros init w.
  - exists init, w. split; [reflexivity|]. intros k. cbn. tauto.
  - destruct (calculate_file_hash_total w p) as (fp & w1 & Hc & _).
    destruct (IH (<[p := fp]> init) w1) as (fps & w' & Hf & Hdom).
    exists fps, w'. split.
    + cbn [foldM]. run. rewrite Hc. run. exact Hf.
    + intros k. rewrite Hdom. cbn [In].
      destruct (decide (p = k)) as [->|Hne].
      * rewrite lookup_insert_eq. split; [intros _; now left; left | eauto].
      * rewrite lookup_insert_ne by assumption. tauto.
Qed.

Lemma scan_collect_spec (walk : list (string * list string * list string)) (k : string) :
  In k (scan_collect walk) <->
  exists root dirs files file,
    In (root, dirs, files) walk /\ In file files /\
    scan_selects file = true /\ k = os_path_join root file.
Proof.
  unfold scan_collect. rewrite in_flat_map. split.
  - intros ([[root dirs] files] & Hin & Hk).
    apply in_map_iff in Hk as (file & <- & Hf).
    apply filter_In in Hf as [Hf Hsel]. exists root, dirs, files, file. auto.
  - intros (root & dirs & files & file & Hin & Hf & Hsel & ->).
    exists (root, dirs, files). split; [exact Hin|].
    apply in_map. apply filter_In. auto.
Qed.

Lemma scan_arcsec_files_keys {L : PyLib} (w : world) (root_directory : string) :
  exists o fps w',
    scan_arcsec_files root_directory w = (inr (JObj o), w') /\
    o !! "file_fingerprints" = Some (JObj fps) /\
    forall k, is_Some (fps !! k) <-> In k (scan_collect (os_walk w root_directory)).
Proof.
  destruct (scan_fold (scan_collect (os_walk w root_directory)) ∅ w)
    as (fps & w1 & Hf & Hdom).
  unfold scan_arcsec_files, generate_integrity_seal. run.
  match goal with
  | |- context [foldM ?f ?l ?i ?w0] =>
      change (foldM f l i w0)
        with (foldM (fun (fps : gmap string json) filepath =>
                       fingerprint <- calculate_file_hash filepath ;;
                       ret (<[filepath := fingerprint]> fps)) l i w0)
  end.
  rewrite Hf. run.
  eexists _, fps, _. split; [reflexivity|]. split; [now rewrite lookup_obj|].
  intros k. rewrite Hdom, lookup_empty. split; [intros [H|[? H]]; [exact H|discriminate]|auto].
Qed.

(** C6, as amended.  [scan_arcsec_files] puts into the manifest only files
    found under the root directory whose name starts with the marker
    [arcsec] under case-insensitive matching (a prefix: a name that merely
    contains the marker is not enumerated), and it puts in every such file
    whose name starts with [arcsec] or with [ARCSEC]. *)
Theorem scan_arcsec_files_enumeration {L : PyLib} (w : world) (root_directory : string) :
  exists o fps w',
    scan_arcsec_files root_directory w = (inr (JObj o), w') /\
    o !! "file_fingerprints" = Some (JObj fps) /\
    (forall filepath, is_Some (fps !! filepath) ->
       exists root dirs files file,
         In (root, dirs, files) (os_walk w root_directory) /\ In file files /\
         filepath = os_path_join root file /\
         Str.startswith (Str.lower file) "arcsec" = true) /\
    (forall root dirs files file,
       In (root, dirs, files) (os_walk w root_directory) -> In file files ->
       Str.startswith file "arcsec" = true \/ Str.startswith file "ARCSEC" = true ->
       is_Some (fps !! os_path_join root file)).
Proof.
  destruct (scan_arcsec_files_keys w root_directory) as (o & fps & w' & Hs & Hfp & Hk).
  exists o, fps, w'. split; [exact Hs|]. split; [exact Hfp|]. split.
  - intros filepath Hin. apply Hk, scan_collect_spec in Hin
      as (root & dirs & files & file & Hw & Hf & Hsel & ->).
    exists root, dirs, files, file. repeat split; try assumption.
    now apply scan_selects_lower.
  - intros root dirs files file Hw Hf Hp. apply Hk, scan_collect_spec.
    exists root, dirs, files, file. repeat split; try assumption.
    unfold scan_selects. apply orb_true_iff. exact Hp.
Qed.

Lemma scan_arcsec_files_enumeration_witness :
  exists o fps w',
    scan_arcsec_files (L := Toy.lib) "." Examples.w_names = (inr (JObj o), w') /\
    o !! "file_fingerprints" = Some (JObj fps) /\
    is_Some (fps !! "./arcsec_a.py").
Proof.
  destruct (scan_arcsec_files_enumeration (L := Toy.lib) Examples.w_names ".")
    as (o & fps & w' & Hs & Hfp & _ & Hall).
  exists o, fps, w'. split; [exact Hs|]. split; [exact Hfp|].
  apply (Hall "." [] ["arcsec_a.py"; "my_arcsec.py"] "arcsec_a.py").
  - left. reflexivity.
  - left. reflexivity.
  - left. reflexivity.
Defined.

(** C6, as stated, fails: a file whose name contains the marker after other
    characters is found by the walk and is left out of the manifest. *)
Lemma scan_skips_marker_inside_name :
  os_walk Examples.w_names "." = [(".", [], ["arcsec_a.py"; "my_arcsec.py"])] /\
  has_marker "my_arcsec.py" = true /\
  exists fps,
    manifest_fingerprints
      (Examples.value (scan_arcsec_files (L := Toy.lib) "." Examples.w_names) JNull)
      = JObj fps /\
    map fst (map_to_list fps) = ["./arcsec_a.py"] /\
    fps !! "./my_arcsec.py" = None.
Proof.
  split; [reflexivity|]. split; [reflexivity|].
  eexists. split; [vm_compute; reflexivity|]. split; vm_compute; reflexivity.
Qed.

(** ** Backup, restore and the event handler *)

(** C8 at a failing input.  Three snapshots of [arcsec_x.py] were taken by
    [backup_file] at the times 101 < 103 < 105; [shutil.copy2] gave each
    the modification time of the file it copied (30, 20 and 10).
    [restore_file] copies back the snapshot taken first. *)
Theorem restore_file_picks_first_snapshot :
  glob Examples.w_overwritten backup_dir "arcsec_x.py.*.backup" =
    [".arcsec_backups/arcsec_x.py.000101.backup";
     ".arcsec_backups/arcsec_x.py.000103.backup";
     ".arcsec_backups/arcsec_x.py.000105.backup"] /\
  lookup_path Examples.w_overwritten ".arcsec_backups/arcsec_x.py.000101.backup"
    = inr (@File Toy.lib (Toy.text "v1") 30 102) /\
  lookup_path Examples.w_overwritten ".arcsec_backups/arcsec_x.py.000103.backup"
    = inr (@File Toy.lib (Toy.text "v2") 20 104) /\
  lookup_path Examples.w_overwritten ".arcsec_backups/arcsec_x.py.000105.backup"
    = inr (@File Toy.lib (Toy.text "v3") 10 106) /\
  fst (restore_file (L := Toy.lib) "arcsec_x.py" Examples.w_overwritten) = inr true /\
  file_content
    (Examples.after (restore_file (L := Toy.lib) "arcsec_x.py") Examples.w_overwritten)
    "arcsec_x.py" = Some (Toy.text "v1").
Proof. repeat split; vm_compute; reflexivity. Qed.

Lemma deleted_event_passes {L : PyLib} (w : world) (filepath : string) :
  field (validate_arcsec_naming filepath) "valid" = Some (JBool true) ->
  enforce_protection filepath "deleted" w = (inr true, w).
Proof.
  intros Hvalid. unfold enforce_protection. run.
  assert (Hg : Py.getitem (validate_arcsec_naming filepath) "valid" = inr (JBool true)).
  { unfold field in Hvalid. unfold Py.getitem.
    destruct (validate_arcsec_naming filepath); try discriminate. now rewrite Hvalid. }
  rewrite Hg. run. cbn [Py.truthy negb]. run.
  change (Str.mem "deleted" ["modified"; "created"]) with false.
  rewrite andb_false_r. reflexivity.
Qed.

(** What the handler does on the deletion of a file with a compliant name:
    nothing. No violation is logged and no backup is taken; the world is as
    it was. *)
Lemma on_deleted_event_nothing {L : PyLib} (w : world) (filepath : string) :
  field (validate_arcsec_naming filepath) "valid" = Some (JBool true) ->
  on_any_event (mkEvent false filepath "deleted") w = (inr tt, w).
Proof.
  intros Hvalid. unfold on_any_event. cbn [is_directory src_path event_type].
  destruct (is_arcsec_related filepath); cbn [negb]; [|reflexivity].
  run. rewrite (deleted_event_passes w filepath Hvalid). reflexivity.
Qed.

(** C9 at a failing input.  The manifest on disk tracks [./arcsec_x.py] and
    the file has been deleted.  The handler passes the event to
    [enforce_protection], which returns [True]: the world is unchanged, so
    the violation counter still is 0, there is no violation log and no
    backup directory. *)
Theorem deletion_of_tracked_file_unanswered :
  field (manifest_fingerprints Examples.manifest0) "./arcsec_x.py" <> None /\
  load_manifest (L := Toy.lib) manifest_file Examples.w_deleted
    = (inr Examples.manifest0, Examples.w_deleted) /\
  is_arcsec_related "./arcsec_x.py" = true /\
  assoc "DELETION_ATTEMPT" (map (fun kv => (fst kv, JStr (snd kv))) violation_responses)
    = Some (JStr "PREVENT_AND_BACKUP") /\
  enforce_protection (L := Toy.lib) "./arcsec_x.py" "deleted" Examples.w_deleted
    = (inr true, Examples.w_deleted) /\
  on_any_event (L := Toy.lib) (mkEvent false "./arcsec_x.py" "deleted") Examples.w_deleted
    = (inr tt, Examples.w_deleted) /\
  violation_count Examples.w_deleted = 0 /\
  os_path_exists Examples.w_deleted violation_log = false /\
  path_exists Examples.w_deleted backup_dir = false.
Proof.
  split; [vm_compute; discriminate|].
  split; [reflexivity|]. split; [reflexivity|]. split; [reflexivity|].
  split; [apply deleted_event_passes; reflexivity|].
  split; [apply on_deleted_event_nothing; reflexivity|].
  repeat split; reflexivity.
Qed.

(** ** Actions that write nothing *)

Section ReadOnly.

Context {L : PyLib}.

Lemma same_store_refl (w : world) : same_store w w.
Proof. unfold same_store. auto. Qed.

Lemma same_store_trans (w1 w2 w3 : world) :
  same_store w1 w2 -> same_store w2 w3 -> same_store w1 w3.
Proof.
  unfold same_store. intros (?&?&?&?&?) (?&?&?&?&?).
  repeat split; try congruence. lia.
Qed.


Lemma ro_ret {A} (a : A) : read_only (ret a).
Proof. intros w. apply same_store_refl. Qed.

Lemma ro_raise {A} (e : exn) : read_only (raise (A := A) e).
Proof. intros w. apply same_store_refl. Qed.

Lemma ro_lift {A} (r : res A) : read_only (lift r).
Proof. intros w. apply same_store_refl. Qed.

Lemma ro_get_world : read_only get_world.
Proof. intros w. apply same_store_refl. Qed.

Lemma ro_now : read_only now.
Proof. intros w. unfold same_store. cbn. repeat split; lia. Qed.

Lemma ro_bind {A B} (m : M A) (k : A -> M B) :
  read_only m -> (forall a, read_only (k a)) -> read_only (bind m k).
Proof.
  intros Hm Hk w. unfold bind. specialize (Hm w).
  destruct (m w) as [[e|a] w1]; cbn [snd] in *; [exact Hm|].
  eapply same_store_trans; [exact Hm|apply Hk].
Qed.

Lemma ro_try {A} (m : M A) (h : exn -> M A) :
  read_only m -> (forall e, read_only (h e)) -> read_only (try_except m h).
Proof.
  intros Hm Hh w. unfold try_except. specialize (Hm w).
  destruct (m w) as [[e|a] w1]; cbn [snd] in *; [|exact Hm].
  eapply same_store_trans; [exact Hm|apply Hh].
Qed.

Lemma ro_and_then (a : bool) (b : M bool) : read_only b -> read_only (and_then a b).
Proof. intros Hb. destruct a; [exact Hb|apply ro_ret]. Qed.

Lemma ro_foldM {A B} (f : B -> A -> M B) (l : list A) (b : B) :
  (forall b a, read_only (f b a)) -> read_only (foldM f l b).
Proof.
  intros Hf. revert b. induction l as [|a l IH]; intros b; cbn [foldM].
  - apply ro_ret.
  - apply ro_bind; [apply Hf|exact IH].
Qed.

Lemma ro_read_bytes (p : string) : read_only (read_bytes p).
Proof.
  unfold read_bytes. apply ro_bind; [apply ro_get_world|]. intros w.
  destruct (lookup_path w p) as [e|[]]; [apply ro_raise|apply ro_ret|apply ro_raise].
Qed.

Lemma ro_stat (p : string) : read_only (stat p).
Proof.
  unfold stat. apply ro_bind; [apply ro_get_world|]. intros w.
  destruct (lookup_path w p) as [e|[]]; [apply ro_raise|apply ro_ret|apply ro_ret].
Qed.

Ltac ro_step :=
  first
    [ apply ro_ret | apply ro_raise | apply ro_lift | apply ro_get_world
    | apply ro_now | apply ro_read_bytes | apply ro_stat
    | apply ro_and_then
    | apply ro_bind; [|intros ?]
    | apply ro_try; [|intros ?]
    | match goal with
      | |- read_only (if ?b then _ else _) => destruct b
      | |- read_only (match ?x with _ => _ end) => destruct x
      | |- read_only (let _ := _ in _) => cbv zeta
      end ].

Lemma ro_calculate_file_hash (p : string) : read_only (calculate_file_hash p).
Proof. unfold calculate_file_hash. repeat ro_step. Qed.

Lemma ro_generate_integrity_seal (f : json) : read_only (generate_integrity_seal f).
Proof. unfold generate_integrity_seal. repeat ro_step. Qed.

Lemma ro_verify_file_integrity (p : string) (e : json) :
  read_only (verify_file_integrity p e).
Proof.
  unfold verify_file_integrity.
  apply ro_bind; [apply ro_calculate_file_hash|intros ?].
  repeat ro_step.
Qed.

Lemma ro_verify_manifest_integrity (m : json) : read_only (verify_manifest_integrity m).
Proof.
  unfold verify_manifest_integrity.
  apply ro_try; [|intros ?; apply ro_ret].
  do 2 (apply ro_bind; [apply ro_lift|intros ?]).
  apply ro_bind; [apply ro_generate_integrity_seal|intros ?].
  repeat ro_step.
Qed.

Lemma ro_load_and_verify_manifest (f : string) : read_only (load_and_verify_manifest f).
Proof.
  unfold load_and_verify_manifest, load_manifest.
  apply ro_try; [|intros ?; apply ro_ret].
  apply ro_bind; [repeat ro_step|intros ?].
  apply ro_bind; [apply ro_verify_manifest_integrity|intros ?].
  apply ro_bind; [apply ro_lift|intros ?].
  destruct (negb _); [apply ro_ret|].
  do 2 (apply ro_bind; [apply ro_lift|intros ?]).
  apply ro_bind; [|intros ?; apply ro_ret].
  apply ro_foldM. intros acc [filepath expected].
  apply ro_bind; [apply ro_lift|intros ?].
  destruct (negb _); [|apply ro_ret].
  apply ro_bind; [apply ro_verify_file_integrity|intros ?; apply ro_ret].
Qed.

Lemma ro_scan_arcsec_files (root : string) : read_only (scan_arcsec_files root).
Proof.
  unfold scan_arcsec_files.
  apply ro_bind; [apply ro_get_world|intros ?].
  apply ro_bind.
  - apply ro_foldM. intros fps filepath.
    apply ro_bind; [apply ro_calculate_file_hash|intros ?; apply ro_ret].
  - intros ?. apply ro_bind; [apply ro_now|intros ?].
    apply ro_bind; [apply ro_get_world|intros ?].
    apply ro_bind; [apply ro_generate_integrity_seal|intros ?; apply ro_ret].
Qed.

Lemma ro_check_file_integrity (p : string) : read_only (check_file_integrity p).
Proof. unfold check_file_integrity. repeat ro_step. Qed.

End ReadOnly.

(** X1.  Scanning, verifying a file, verifying a manifest seal, the full
    verification and the content check of the injector write nothing: the
    file system, the working directory and the violation counter are after
    the call what they were before, whatever the call returns or raises. *)
Theorem verification_writes_nothing {L : PyLib}
    (root filepath manifest_path : string) (expected manifest : json) :
  read_only (scan_arcsec_files root) /\
  read_only (verify_file_integrity filepath expected) /\
  read_only (verify_manifest_integrity manifest) /\
  read_only (load_and_verify_manifest manifest_path) /\
  read_only (check_file_integrity filepath).
Proof.
  split; [apply ro_scan_arcsec_files|].
  split; [apply ro_verify_file_integrity|].
  split; [apply ro_verify_manifest_integrity|].
  split; [apply ro_load_and_verify_manifest|apply ro_check_file_integrity].
Qed.

(** ** Sealing and verifying *)

Lemma generate_integrity_seal_run {L : PyLib} (f : json) (w : world) :
  generate_integrity_seal f w = (inr (seal_at f (clock w (ticks w))), tick w).
Proof. reflexivity. Qed.

Lemma seal_valid_sealed {L : PyLib} (o : gmap string json) (f : json) (t : Z) :
  o !! "file_fingerprints" = Some f ->
  o !! "integrity_seal" = Some (seal_at f t) ->
  seal_valid (JObj o).
Proof.
  intros Hf Hs. unfold seal_valid, manifest_shaped, stored_seal, manifest_fingerprints.
  cbn [field]. rewrite Hf, Hs. unfold seal_at. cbv zeta.
  split; [split; eauto|]. rewrite !field_obj. split; reflexivity.
Qed.

Lemma scan_arcsec_files_sealed {L : PyLib} (w : world) (root_directory : string) :
  exists o fps t w',
    scan_arcsec_files root_directory w = (inr (JObj o), w') /\
    o !! "file_fingerprints" = Some (JObj fps) /\
    o !! "integrity_seal" = Some (seal_at (JObj fps) t).
Proof.
  destruct (scan_fold (scan_collect (os_walk w root_directory)) ∅ w)
    as (fps & w1 & Hf & _).
  unfold scan_arcsec_files. run.
  match goal with
  | |- context [foldM ?f ?l ?i ?w0] =>
      change (foldM f l i w0)
        with (foldM (fun (fps : gmap string json) filepath =>
                       fingerprint <- calculate_file_hash filepath ;;
                       ret (<[filepath := fingerprint]> fps)) l i w0)
  end.
  rewrite Hf. run. rewrite generate_integrity_seal_run. run.
  eexists _, fps, _, _. split; [reflexivity|].
  split; now rewrite lookup_obj.
Qed.

(** X2.  The manifest [scan_arcsec_files] builds passes
    [verify_manifest_integrity], whatever the directory scanned and whenever
    the check is made. *)
Theorem scanned_manifest_verifies {L : PyLib} (w w2 : world) (root_directory : string) :
  exists m w',
    scan_arcsec_files root_directory w = (inr m, w') /\
    returned_field (verify_manifest_integrity m w2) "status"
      = Some (JStr "MANIFEST_VERIFIED") /\
    returned_field (verify_manifest_integrity m w2) "verified" = Some (JBool true).
Proof.
  destruct (scan_arcsec_files_sealed w root_directory)
    as (o & fps & t & w' & Hs & Hf & Hseal).
  exists (JObj o), w'. split; [exact Hs|].
  pose proof (seal_valid_sealed o (JObj fps) t Hf Hseal) as Hv.
  split; [now apply verify_manifest_integrity_verified|].
  destruct (verify_manifest_integrity_result (JObj o) w2)
    as (l & w3 & ok & Hr & Hok & Hver & _).
  unfold returned_field. rewrite Hr. cbn [fst]. rewrite field_obj, Hver.
  now rewrite (proj2 Hok Hv).
Qed.

Lemma status_determined {L : PyLib} (m m' : json) (w w' : world) :
  (manifest_shaped m <-> manifest_shaped m') ->
  (seal_valid m <-> seal_valid m') ->
  returned_field (verify_manifest_integrity m w) "status" =
  returned_field (verify_manifest_integrity m' w') "status".
Proof.
  intros Hsh Hval. unfold returned_field.
  destruct (manifest_shaped_dec m) as [Hs|Hn].
  - destruct (verify_manifest_integrity_shaped m w Hs) as (l & ok & Hv & Hok & _ & Hst).
    destruct (verify_manifest_integrity_shaped m' w' (proj1 Hsh Hs))
      as (l' & ok' & Hv' & Hok' & _ & Hst').
    rewrite Hv, Hv'. cbn [fst]. rewrite !field_obj, Hst, Hst'.
    assert (ok = ok') as <-; [|reflexivity].
    destruct ok, ok'; try reflexivity.
    + symmetry. apply Hok', Hval, Hok. reflexivity.
    + apply Hok, Hval, Hok'. reflexivity.
  - destruct (verify_manifest_integrity_unshaped m w Hn) as (msg & w1 & Hv).
    assert (Hn' : ~ manifest_shaped m') by tauto.
    destruct (verify_manifest_integrity_unshaped m' w' Hn') as (msg' & w1' & Hv').
    rewrite Hv, Hv'. cbn [fst]. now rewrite !field_obj.
Qed.

(** X3.  The seal covers the fingerprints only: setting any other top-level
    entry of a manifest (the header ["arcsec_fingerprint_manifest"], the
    ["manifest_metadata"] that [save_manifest] adds, or a new key) to any
    value leaves the status [verify_manifest_integrity] returns as it was. *)
Theorem entries_outside_seal_unchecked {L : PyLib}
    (o : gmap string json) (k : string) (v : json) (w w' : world) :
  k <> "file_fingerprints" -> k <> "integrity_seal" ->
  returned_field (verify_manifest_integrity (JObj (<[k := v]> o)) w') "status" =
  returned_field (verify_manifest_integrity (JObj o) w) "status".
Proof.
  intros Hk1 Hk2.
  assert (Hseal : stored_seal (JObj (<[k := v]> o)) = stored_seal (JObj o)).
  { unfold stored_seal, field. now rewrite lookup_insert_ne. }
  assert (Hfp : manifest_fingerprints (JObj (<[k := v]> o)) = manifest_fingerprints (JObj o)).
  { unfold manifest_fingerprints, field. now rewrite lookup_insert_ne. }
  assert (Hsh : manifest_shaped (JObj (<[k := v]> o)) <-> manifest_shaped (JObj o)).
  { unfold manifest_shaped. rewrite Hseal. split; intros [_ H]; split; eauto. }
  apply status_determined; [exact Hsh|].
  unfold seal_valid. now rewrite Hseal, Hfp, Hsh.
Qed.

Lemma entries_outside_seal_unchecked_witness :
  returned_field
    (verify_manifest_integrity (L := Toy.lib)
       (with_metadata Examples.w_tracked "out.json"
          (match Examples.manifest0 with JObj o => o | _ => ∅ end))
       Examples.w_tracked) "status" =
  returned_field
    (verify_manifest_integrity (L := Toy.lib)
       (JObj (match Examples.manifest0 with JObj o => o | _ => ∅ end))
       Examples.w_tracked) "status".
Proof.
  apply (entries_outside_seal_unchecked (L := Toy.lib)); discriminate.
Defined.

(** X4.  On a manifest whose seal verifies, replacing the fingerprint set by
    one whose canonical serialisation has another sha256 digest, or another
    keyed code, makes [verify_manifest_integrity] return
    MANIFEST_TAMPERED. *)
Theorem fingerprint_edit_detected {L : PyLib}
    (o : gmap string json) (f' : json) (w w' : world) :
  returned_field (verify_manifest_integrity (JObj o) w) "status"
    = Some (JStr "MANIFEST_VERIFIED") ->
  sha256_hex (json_dumps_sorted f')
    <> sha256_hex (json_dumps_sorted (manifest_fingerprints (JObj o))) \/
  hmac_sha256_hex secret_key (json_dumps_sorted f')
    <> hmac_sha256_hex secret_key (json_dumps_sorted (manifest_fingerprints (JObj o))) ->
  returned_field
    (verify_manifest_integrity (JObj (<["file_fingerprints" := f']> o)) w') "status"
    = Some (JStr "MANIFEST_TAMPERED").
Proof.
  intros Hok Hdiff. apply verify_manifest_integrity_verified in Hok.
  destruct Hok as ([_ [s Hs]] & Hh & Hm).
  set (m' := JObj (<["file_fingerprints" := f']> o)).
  assert (Hseal : stored_seal m' = JObj s).
  { unfold m', stored_seal, field in *. now rewrite lookup_insert_ne. }
  assert (Hfp : manifest_fingerprints m' = f').
  { unfold m', manifest_fingerprints, field. now rewrite lookup_insert_eq. }
  assert (Hsh : manifest_shaped m') by (split; [unfold m'|]; eauto).
  destruct (verify_manifest_integrity_shaped m' w' Hsh) as (l & ok & Hv & Hval & _ & Hst).
  unfold returned_field. rewrite Hv. cbn [fst]. rewrite field_obj, Hst.
  destruct ok; [|reflexivity]. exfalso.
  destruct (proj1 Hval eq_refl) as (_ & Hh' & Hm').
  rewrite Hseal, Hfp in Hh', Hm'. rewrite Hs in Hh, Hm.
  destruct Hdiff as [Hd|Hd]; apply Hd; congruence.
Qed.

Lemma fingerprint_edit_detected_witness :
  returned_field
    (verify_manifest_integrity (L := Toy2.lib)
       (JObj (<["file_fingerprints" := JStr "edited"]> Toy2.sealed))
       Toy2.w_empty) "status"
  = Some (JStr "MANIFEST_TAMPERED").
Proof.
  apply (fingerprint_edit_detected (L := Toy2.lib) Toy2.sealed (JStr "edited")
           Toy2.w_empty).
  - vm_compute. reflexivity.
  - left. vm_compute. discriminate.
Defined.

(** ** A fingerprint and the file it was taken from *)




(** ** The full verification *)

Lemma bind_inr {L : PyLib} {A B} (m : M A) (k : A -> M B) (w w' : world) (b : B) :
  bind m k w = (inr b, w') ->
  exists a w1, m w = (inr a, w1) /\ k a w1 = (inr b, w').
Proof.
  unfold bind. destruct (m w) as [[e|a] w1]; [discriminate|]. eauto.
Qed.





Section VerifyLoop.

Context {L : PyLib}.




End VerifyLoop.



(** X7.  [load_and_verify_manifest] never raises: it returns a dict whose
    status is MANIFEST_COMPROMISED, VERIFICATION_COMPLETE or
    VERIFICATION_ERROR. *)
Theorem load_and_verify_manifest_total {L : PyLib} (w : world) (manifest_file : string) :
  exists r w',
    load_and_verify_manifest manifest_file w = (inr r, w') /\
    (field r "status" = Some (JStr "MANIFEST_COMPROMISED") \/
     field r "status" = Some (JStr "VERIFICATION_COMPLETE") \/
     field r "status" = Some (JStr "VERIFICATION_ERROR")).
Proof.
  unfold load_and_verify_manifest, try_except.
  match goal with |- context [match ?body w with _ => _ end] =>
    destruct (body w) as [[e|r] w1] eqn:Hb end.
  - eexists _, _. split; [reflexivity|]. right. right. now rewrite field_obj.
  - exists r, w1. split; [reflexivity|].
    apply bind_inr in Hb as (m & w2 & _ & Hb).
    apply bind_inr in Hb as (mv & w3 & _ & Hb).
    apply bind_inr in Hb as (verified & w4 & _ & Hb).
    destruct (negb (Py.truthy verified)).
    + injection Hb as <- _. left. now rewrite field_obj.
    + apply bind_inr in Hb as (fps & w5 & _ & Hb).
      apply bind_inr in Hb as (items & w6 & _ & Hb).
      apply bind_inr in Hb as (fv & w7 & _ & Hb).
      injection Hb as <- _. right. left. now rewrite field_obj.
Qed.

(** X8.  When the manifest file cannot be read as a regular file, or its
    contents are not JSON, [load_and_verify_manifest] reports
    VERIFICATION_ERROR with the message of the exception, and nothing
    else: no manifest verification and no per-file result. *)
Theorem load_and_verify_manifest_unreadable {L : PyLib}
    (w : world) (manifest_file : string) :
  (file_content w manifest_file = None \/
   exists text e, file_content w manifest_file = Some text /\ json_load text = inl e) ->
  exists e,
    load_and_verify_manifest manifest_file w =
    (inr (Py.obj [("status", JStr "VERIFICATION_ERROR");
                  ("error", JStr (exn_str e))]), w).
Proof.
  intros [Hnone | (text & e & Hfc & Hload)].
  - unfold file_content in Hnone.
    unfold load_and_verify_manifest, load_manifest. run.
    destruct (lookup_path w manifest_file) as [e|[c mt ct|mt es]]; run;
      [eauto|discriminate|eauto].
  - destruct (file_content_lookup w manifest_file text Hfc) as (mt & ct & Hf).
    exists e. unfold load_and_verify_manifest, load_manifest. run.
    rewrite Hf. run. rewrite Hload. reflexivity.
Qed.

Lemma load_and_verify_manifest_unreadable_witness :
  exists e,
    load_and_verify_manifest (L := Toy.lib) "ARCSEC_FINGERPRINT_MANIFEST.json"
      Examples.w_tracked =
    (inr (Py.obj [("status", JStr "VERIFICATION_ERROR");
                  ("error", JStr (exn_str (PyLib := Toy.lib) e))]), Examples.w_tracked).
Proof.
  apply (load_and_verify_manifest_unreadable (L := Toy.lib)). left. reflexivity.
Defined.

(** ** Writing in the working directory *)

Section Writing.

Context {L : PyLib}.

Lemma fs_put_child (t : Z) (root : node) (parent : list string) (name : string)
    (new : node) :
  is_dir (fs_get root parent) = true ->
  exists root', fs_put t root (parent ++ [name]) new = Some root'.
Proof using Type.
  revert root. induction parent as [|c parent IH]; intros root Hd.
  - cbn in Hd. destruct root as [|mt es]; [discriminate|]. cbn. eauto.
  - cbn [fs_get] in Hd. destruct root as [|mt es]; [discriminate|].
    destruct (alist_get c es) as [child|] eqn:Hc; [|discriminate].
    destruct (IH child Hd) as [child' Hp].
    cbn [app fs_put]. rewrite Hc, Hp.
    destruct (parent ++ [name]) eqn:E; [destruct parent; discriminate|]. eauto.
Qed.

Lemma resolve_simple (w : world) (name : string) :
  simple_name name ->
  is_dir (fs_get (fs w) (cwd w)) = true ->
  resolve w name = inr (cwd w ++ [name]).
Proof using Type.
  intros (Hns & Hne & Hdot & Hdd) Hd. unfold resolve.
  rewrite (proj2 (String.eqb_neq name "") Hne).
  destruct name as [|c name']; [congruence|].
  assert (Hc : Ascii.eqb c "/" = false).
  { apply Ascii.eqb_neq. intros ->. apply Hns. now left. }
  rewrite startswith_cons, Hc.
  rewrite (split_on_literal _ Hns). cbn [resolve_from].
  rewrite (proj2 (String.eqb_neq _ "") Hne), (proj2 (String.eqb_neq _ ".") Hdot),
          (proj2 (String.eqb_neq _ "..") Hdd).
  cbn [orb]. destruct (fs_get (fs w) (cwd w)) as [[|mt es]|]; try discriminate.
  reflexivity.
Qed.


Lemma append_file_here (w : world) (name : string) (c : bytes) :
  simple_name name -> writable_here w name ->
  exists w1,
    append_file name c w = (inr tt, w1) /\
    file_content w1 name =
      Some (match file_content w name with Some old => bcat old c | None => c end) /\
    is_dir (fs_get (fs w1) (cwd w1)) = true /\
    is_dir (fs_get (fs w1) (cwd w1 ++ [name])) = false /\
    cwd w1 = cwd w /\ clock w1 = clock w /\ ticks w1 = S (ticks w) /\
    violation_count w1 = violation_count w.
Proof using Type.
  intros Hn [Hd Hnd].
  set (c' := match file_content w name with Some old => bcat old c | None => c end).
  set (t := clock w (ticks w)).
  destruct (fs_put_child t (fs w) (cwd w) name (File c' t t) Hd) as [root' Hp].
  assert (Hlook : lookup_path w name =
                  match fs_get (fs w) (cwd w ++ [name]) with
                  | Some n => inr n | None => inl FileNotFoundError end).
  { unfold lookup_path. now rewrite (resolve_simple w name Hn Hd). }
  assert (Hw : append_file name c w =
               (inr tt, mkWorld root' (cwd w) (S (ticks w)) (clock w) (violation_count w))).
  { unfold append_file. run. rewrite (resolve_simple w name Hn Hd). run.
    unfold c', file_content in Hp. rewrite Hlook in Hp. fold t.
    destruct (fs_get (fs w) (cwd w ++ [name])) as [[c0 mt ct|]|]; try discriminate;
      run; cbn [fs ticks clock cwd violation_count]; fold t; now rewrite Hp. }
  eexists. split; [exact Hw|]. cbn [fs cwd clock ticks violation_count].
  assert (Hget : fs_get root' (cwd w ++ [name]) = Some (File c' t t))
    by apply (fs_get_put_same _ _ _ _ _ Hp).
  assert (Hkeep : forall path, is_dir (fs_get (fs w) path) = true ->
                               is_dir (fs_get root' path) = true)
    by (apply (fs_put_keeps_dirs _ _ _ _ _ Hp); exact Hnd).
  split; [|split; [|split; [|repeat split]]].
  - unfold file_content, lookup_path, resolve. cbn [fs cwd].
    pose proof (resolve_simple w name Hn Hd) as Hr. unfold resolve in Hr.
    destruct (String.eqb name ""); [discriminate|].
    rewrite (resolve_from_keeps (fs w) root' _ _ _ Hkeep Hr). cbn [rbind].
    now rewrite Hget.
  - now apply Hkeep.
  - now rewrite Hget.
Qed.

End Writing.

(** ** The violation log *)

Lemma simple_violation_log : simple_name violation_log.
Proof.
  unfold simple_name, no_slash, violation_log. split.
  - cbn. intuition discriminate.
  - repeat split; discriminate.
Qed.

Lemma log_violation_here {L : PyLib}
    (w : world) (violation_type filepath : string) (d : gmap string json) :
  writable_here w violation_log ->
  exists w1,
    log_violation violation_type filepath (JObj d) w = (inr tt, w1) /\
    violation_count w1 = S (violation_count w) /\
    file_content w1 violation_log =
      Some (log_after w
              (log_line (violation_entry (S (violation_count w)) (clock w (ticks w))
                           violation_type filepath (JObj d) (action_of (JObj d))))) /\
    writable_here w1 violation_log /\
    cwd w1 = cwd w /\ clock w1 = clock w /\ ticks w1 = S (S (ticks w)).
Proof.
  intros Hw.
  set (w0 := mkWorld (fs w) (cwd w) (S (ticks w)) (clock w) (S (violation_count w))).
  assert (Hw0 : writable_here w0 violation_log) by exact Hw.
  set (line := log_line (violation_entry (S (violation_count w)) (clock w (ticks w))
                           violation_type filepath (JObj d) (action_of (JObj d)))).
  destruct (append_file_here w0 violation_log line simple_violation_log Hw0)
    as (w1 & Ha & Hc & Hd1 & Hd2 & Hcwd & Hclock & Hticks & Hcount).
  exists w1. split.
  - unfold log_violation, incr_violation_count. run. cbn [Py.get].
    cbn [fs cwd ticks clock violation_count]. run.
    exact Ha.
  - split; [exact Hcount|]. split; [exact Hc|]. split; [split; assumption|].
    split; [exact Hcwd|]. split; [exact Hclock|exact Hticks].
Qed.

(** X9.  In a working directory where the log can be written,
    [log_violation] with a dict of details raises the violation counter by
    one and adds one line at the end of the log, after everything the log
    held: the record with the identifier ARCSEC-n (n the new counter value,
    on six digits), the type, the path, the details and, as enforcement
    action, [details["action"]] or UNKNOWN. *)
Theorem log_violation_appends {L : PyLib}
    (w : world) (violation_type filepath : string) (d : gmap string json) :
  writable_here w violation_log ->
  exists w1,
    log_violation violation_type filepath (JObj d) w = (inr tt, w1) /\
    violation_count w1 = S (violation_count w) /\
    file_content w1 violation_log =
      Some (log_after w
              (log_line (violation_entry (S (violation_count w)) (clock w (ticks w))
                           violation_type filepath (JObj d) (action_of (JObj d))))) /\
    writable_here w1 violation_log.
Proof.
  intros Hw.
  destruct (log_violation_here w violation_type filepath d Hw)
    as (w1 & H1 & H2 & H3 & H4 & _).
  eauto.
Qed.

Lemma log_violation_appends_witness :
  exists w1,
    log_violation (L := Toy.lib) "NAMING_VIOLATION" "my_arcsec.py" (Py.obj [])
      Examples.w_tracked = (inr tt, w1) /\
    violation_count w1 = 1.
Proof.
  destruct (log_violation_appends (L := Toy.lib) Examples.w_tracked
              "NAMING_VIOLATION" "my_arcsec.py" ∅) as (w1 & H1 & H2 & _).
  - split; reflexivity.
  - exists w1. split; [exact H1|exact H2].
Defined.

(** ** Enforcement *)

Lemma invalid_name_details (filepath : string) :
  field (validate_arcsec_naming filepath) "valid" = Some (JBool false) ->
  exists d, validate_arcsec_naming filepath = JObj d /\
            action_of (JObj d) = JStr "UNKNOWN".
Proof.
  intros Hv. unfold validate_arcsec_naming in *.
  destruct (is_arcsec_file filepath); cbn [negb] in *.
  - eexists. split; [reflexivity|]. unfold action_of.
    change (JObj (list_to_map ?l)) with (Py.obj l). now rewrite field_obj.
  - rewrite field_obj in Hv. discriminate.
Qed.

(** X10.  A file whose name breaks the naming rules is turned away without
    any content check: in a working directory where the log can be written,
    [enforce_protection] returns [False] for every event type, having logged
    one NAMING_VIOLATION record whose details are the validator's result.
    The record's enforcement action is UNKNOWN, because the validator's
    result has no ["action"] key (it names its action
    ["enforcement_action"]). *)
Theorem naming_violation_blocked {L : PyLib}
    (w : world) (filepath event_type : string) :
  field (validate_arcsec_naming filepath) "valid" = Some (JBool false) ->
  writable_here w violation_log ->
  exists w1,
    enforce_protection filepath event_type w = (inr false, w1) /\
    violation_count w1 = S (violation_count w) /\
    file_content w1 violation_log =
      Some (log_after w
              (log_line (violation_entry (S (violation_count w)) (clock w (ticks w))
                           "NAMING_VIOLATION" filepath
                           (validate_arcsec_naming filepath) (JStr "UNKNOWN")))).
Proof.
  intros Hv Hw.
  destruct (invalid_name_details filepath Hv) as (d & Hd & Hact).
  destruct (log_violation_here w "NAMING_VIOLATION" filepath d Hw)
    as (w1 & Hlog & Hcount & Hfile & _).
  exists w1. rewrite Hd. rewrite Hact in Hfile.
  split; [|split; assumption].
  unfold enforce_protection. run. rewrite Hd in *.
  unfold field in Hv. cbn [Py.getitem]. rewrite Hv. run.
  cbn [Py.truthy negb]. run. rewrite Hlog. reflexivity.
Qed.

Lemma naming_violation_blocked_witness :
  exists w1,
    enforce_protection (L := Toy.lib) "my_arcsec.py" "created" Examples.w_names
      = (inr false, w1) /\
    violation_count w1 = 1.
Proof.
  destruct (naming_violation_blocked (L := Toy.lib) Examples.w_names
              "my_arcsec.py" "created") as (w1 & H1 & H2 & _).
  - reflexivity.
  - split; reflexivity.
  - exists w1. split; [exact H1|exact H2].
Defined.

Lemma log_violation_fails {L : PyLib}
    (w : world) (violation_type filepath : string) (d : gmap string json) mt es :
  lookup_path w violation_log = inr (Dir mt es) ->
  log_violation violation_type filepath (JObj d) w =
  (inl IsADirectoryError,
   mkWorld (fs w) (cwd w) (S (ticks w)) (clock w) (S (violation_count w))).
Proof.
  intros Hl. unfold lookup_path, rbind in Hl.
  destruct (resolve w violation_log) as [e|q] eqn:Hr; [discriminate|].
  destruct (fs_get (fs w) q) as [n|] eqn:Hg; [|discriminate].
  injection Hl as ->.
  unfold log_violation, incr_violation_count, append_file. run. cbn [Py.get]. run.
  unfold resolve in *. cbn [fs cwd]. rewrite Hr. run. cbn [fs]. rewrite Hg. reflexivity.
Qed.

(** X11.  When the violation log cannot be written because its path names a
    directory, a naming violation makes [enforce_protection] raise: the
    write fails inside [log_violation], the handler of the exception calls
    [log_violation] again for an ENFORCEMENT_ERROR, and that call fails the
    same way outside the [try].  The counter has then advanced by two and
    nothing was logged. *)
Theorem enforce_protection_log_failure {L : PyLib}
    (w : world) (filepath event_type : string) mt es :
  field (validate_arcsec_naming filepath) "valid" = Some (JBool false) ->
  lookup_path w violation_log = inr (Dir mt es) ->
  exists w1,
    enforce_protection filepath event_type w = (inl IsADirectoryError, w1) /\
    violation_count w1 = S (S (violation_count w)) /\
    fs w1 = fs w.
Proof.
  intros Hv Hl.
  destruct (invalid_name_details filepath Hv) as (d & Hd & _).
  eexists. split.
  - unfold enforce_protection. run. rewrite Hd in *.
    unfold field in Hv. cbn [Py.getitem]. rewrite Hv. run.
    cbn [Py.truthy negb]. run.
    rewrite (log_violation_fails w _ _ d mt es Hl). run.
    change (Py.obj [("error", JStr (exn_str IsADirectoryError))])
      with (JObj (list_to_map [("error", JStr (exn_str IsADirectoryError))])).
    rewrite (log_violation_fails _ _ _ _ mt es); [reflexivity|exact Hl].
  - split; reflexivity.
Qed.

Lemma enforce_protection_log_failure_witness :
  exists w1,
    enforce_protection (L := Toy.lib) "my_arcsec.py" "created"
      (Toy.world_of [("ARCSEC_VIOLATIONS.log", Toy.dir [])])
      = (inl IsADirectoryError, w1) /\
    violation_count w1 = 2.
Proof.
  destruct (enforce_protection_log_failure (L := Toy.lib)
              (Toy.world_of [("ARCSEC_VIOLATIONS.log", Toy.dir [])])
              "my_arcsec.py" "created" 0%Z [] eq_refl eq_refl) as (w1 & H1 & H2 & _).
  exists w1. split; [exact H1|exact H2].
Defined.

Ltac status_leaf :=
  eexists; split; [reflexivity|]; rewrite field_obj;
  cbn [assoc String.eqb Ascii.eqb Bool.eqb];
  first [ left; reflexivity
        | right; left; reflexivity
        | right; right; left; reflexivity
        | right; right; right; left; reflexivity
        | right; right; right; right; reflexivity ].

(** X12.  [check_file_integrity] never raises and changes nothing, not even
    the clock: it returns a dict whose status is NO_MANIFEST, NEW_FILE,
    INTEGRITY_VIOLATION, VERIFIED or CHECK_ERROR. *)
Theorem check_file_integrity_total {L : PyLib} (w : world) (filepath : string) :
  exists r,
    check_file_integrity filepath w = (inr r, w) /\
    (field r "status" = Some (JStr "NO_MANIFEST") \/
     field r "status" = Some (JStr "NEW_FILE") \/
     field r "status" = Some (JStr "INTEGRITY_VIOLATION") \/
     field r "status" = Some (JStr "VERIFIED") \/
     field r "status" = Some (JStr "CHECK_ERROR")).
Proof.
  unfold check_file_integrity. run.
  destruct (lookup_path w manifest_file) as [e|[text mt ct|mt es]] eqn:Hl;
    cbn [negb]; run; rewrite ?Hl; run; [status_leaf| |status_leaf].
  destruct (json_load text) as [e|m]; run; [status_leaf|].
  destruct (Py.get m "file_fingerprints" (Py.obj [])) as [e|fps]; run; [status_leaf|].
  destruct (Py.get fps filepath JNull) as [e|ef]; run; [status_leaf|].
  destruct (Py.truthy ef); cbn [negb]; run; [|status_leaf].
  destruct (lookup_path w filepath) as [e|[c mt' ct'|mt' es']]; run;
    [status_leaf| |status_leaf].
  destruct (rbind (Py.get ef "hashes" (Py.obj [])) _) as [e|eh]; run; [status_leaf|].
  destruct (negb (Py.eq (JStr (sha256_hex c)) eh)); status_leaf.
Qed.

(** X13.  Without a manifest file the content check answers NO_MANIFEST;
    with a manifest (a dict whose fingerprints are a dict) that has no entry
    under exactly the path given, or a falsy one, it answers NEW_FILE,
    whether or not the file exists. *)
Theorem check_file_integrity_untracked {L : PyLib} (w : world) (filepath : string) :
  (os_path_exists w manifest_file = false ->
   check_file_integrity filepath w =
   (inr (Py.obj [("status", JStr "NO_MANIFEST"); ("action", JStr "GENERATE_BASELINE")]), w)) /\
  (forall text o fps,
     file_content w manifest_file = Some text ->
     json_load text = inr (JObj o) ->
     manifest_fingerprints (JObj o) = JObj fps ->
     Py.truthy (match fps !! filepath with Some x => x | None => JNull end) = false ->
     check_file_integrity filepath w =
     (inr (Py.obj [("status", JStr "NEW_FILE"); ("action", JStr "ADD_TO_MANIFEST")]), w)).
Proof.
  split.
  - intros Hno. unfold check_file_integrity. run.
    unfold os_path_exists in Hno.
    destruct (lookup_path w manifest_file); [reflexivity|discriminate].
  - intros text o fps Hfc Hload Hfps Hfalsy.
    destruct (file_content_lookup w manifest_file text Hfc) as (mt & ct & Hf).
    unfold check_file_integrity. run. rewrite Hf. cbn [negb]. run.
    rewrite Hf. run. rewrite Hload. run. rewrite field_get.
    change (match field (JObj o) "file_fingerprints" with
            | Some x => x | None => Py.obj [] end)
      with (manifest_fingerprints (JObj o)).
    rewrite Hfps. cbn [Py.get]. run. rewrite Hfalsy. reflexivity.
Qed.

Lemma check_file_integrity_untracked_witness :
  check_file_integrity (L := Toy.lib) "arcsec_x.py" Examples.w_tracked =
  (inr (Py.obj [("status", JStr "NO_MANIFEST"); ("action", JStr "GENERATE_BASELINE")]),
   Examples.w_tracked) /\
  check_file_integrity (L := Toy.lib) "arcsec_new.py" Examples.w_other_key =
  (inr (Py.obj [("status", JStr "NEW_FILE"); ("action", JStr "ADD_TO_MANIFEST")]),
   Examples.w_other_key).
Proof.
  split.
  - apply (proj1 (check_file_integrity_untracked (L := Toy.lib) Examples.w_tracked
                    "arcsec_x.py")). reflexivity.
  - eapply (proj2 (check_file_integrity_untracked (L := Toy.lib) Examples.w_other_key
                     "arcsec_new.py")).
    + reflexivity.
    + reflexivity.
    + vm_compute. reflexivity.
    + vm_compute. reflexivity.
Defined.




(** ** The main program of the fingerprint module *)









Lemma fs_get_snoc {L : PyLib} (root : node) (p : list string) (n : string) :
  fs_get root (p ++ [n]) =
  match fs_get root p with
  | Some (Dir _ es) => alist_get n es
  | _ => None
  end.
Proof.
  revert root. induction p as [|c p IH]; intros root; cbn [app fs_get].
  - destruct root as [|mt es]; [reflexivity|]. now destruct (alist_get n es).
  - destruct root as [|mt es]; [reflexivity|].
    destruct (alist_get c es); [apply IH|reflexivity].
Qed.





(** ** Snapshots: names and patterns *)









(** ** Backups and restores *)




Section Copying.

Context {L : PyLib}.

Lemma fs_get_put_other (t : Z) (root root' : node) (p : list string)
    (a b : string) (r1 r2 : list string) (new : node) :
  fs_put t root (p ++ a :: r1) new = Some root' -> a <> b ->
  fs_get root' (p ++ b :: r2) = fs_get root (p ++ b :: r2).
Proof using Type.
  revert root root'. induction p as [|x p IH]; intros root root' H Hne.
  - cbn [app] in *. cbn [fs_put] in H. destruct root as [|mt es]; [discriminate|].
    destruct r1 as [|y r1].
    + injection H as <-. cbn [fs_get]. now rewrite alist_get_set_ne.
    + destruct (alist_get a es); [|discriminate].
      destruct (fs_put t n (y :: r1) new); [|discriminate].
      injection H as <-. cbn [fs_get]. now rewrite alist_get_set_ne.
  - cbn [app fs_put] in H. destruct root as [|mt es]; [discriminate|].
    destruct (p ++ a :: r1) as [|y l] eqn:E; [destruct p; discriminate|].
    destruct (alist_get x es) as [child|] eqn:Hc; [|discriminate].
    destruct (fs_put t child (y :: l) new) as [child'|] eqn:Hp; [|discriminate].
    injection H as <-. cbn [app fs_get]. rewrite alist_get_set_eq, Hc.
    apply (IH _ _ Hp Hne).
Qed.

Lemma fs_get_put_parent (t : Z) (root root' : node) (p : list string) (n : string)
    (new : node) (mt : Z) (es : list (string * node)) :
  fs_get root p = Some (Dir mt es) ->
  fs_put t root (p ++ [n]) new = Some root' ->
  exists mt', fs_get root' p = Some (Dir mt' (alist_set n new es)).
Proof using Type.
  revert root root'. induction p as [|x p IH]; intros root root' Hg Hp.
  - cbn in Hg. injection Hg as ->. cbn in Hp. injection Hp as <-. cbn. eauto.
  - cbn [fs_get] in Hg. destruct root as [|mt0 es0]; [discriminate|].
    destruct (alist_get x es0) as [child|] eqn:Hc; [|discriminate].
    cbn [app fs_put] in Hp.
    destruct (p ++ [n]) as [|y l] eqn:E; [destruct p; discriminate|].
    rewrite Hc in Hp.
    destruct (fs_put t child (y :: l) new) as [child'|] eqn:Hp'; [|discriminate].
    injection Hp as <-. cbn [fs_get]. rewrite alist_get_set_eq.
    apply (IH _ _ Hg Hp').
Qed.

Lemma lookup_path_resolved (w : world) (p : string) (q : list string) :
  resolve w p = inr q ->
  lookup_path w p =
    match fs_get (fs w) q with Some n => inr n | None => inl FileNotFoundError end.
Proof using Type. intros H. unfold lookup_path. now rewrite H. Qed.

(** A path naming an entry of a subdirectory of the working directory. *)
Lemma resolve_in_subdir (w : world) (d name : string) :
  simple_name d -> simple_name name ->
  is_dir (fs_get (fs w) (cwd w)) = true ->
  is_dir (fs_get (fs w) (cwd w ++ [d])) = true ->
  resolve w (d +:+ "/" +:+ name) = inr (cwd w ++ [d; name]).
Proof using Type.
  intros (Hds & Hde & Hdd & Hddd) (Hns & Hne & Hnd & Hndd) Hc Hd.
  unfold resolve.
  destruct d as [|c d']; [congruence|].
  assert (Hc1 : Ascii.eqb c "/" = false).
  { apply Ascii.eqb_neq. intros ->. apply Hds. now left. }
  change (String c d' +:+ "/" +:+ name) with (String c (d' +:+ "/" +:+ name)).
  cbn [String.eqb]. rewrite startswith_cons, Hc1.
  change (String c (d' +:+ "/" +:+ name)) with (String c d' +:+ String "/" name).
  rewrite (split_on_app _ _ Hds), (split_on_literal _ Hns).
  cbn [resolve_from].
  rewrite (proj2 (String.eqb_neq _ "") Hde), (proj2 (String.eqb_neq _ ".") Hdd),
          (proj2 (String.eqb_neq _ "..") Hddd).
  rewrite (proj2 (String.eqb_neq _ "") Hne), (proj2 (String.eqb_neq _ ".") Hnd),
          (proj2 (String.eqb_neq _ "..") Hndd).
  cbn [orb].
  destruct (fs_get (fs w) (cwd w)) as [[|mt es]|]; try discriminate.
  destruct (fs_get (fs w) (cwd w ++ [String c d'])) as [[|mt' es']|]; try discriminate.
  now rewrite <- app_assoc.
Qed.

(** [shutil.copy2] of a regular file to a path whose parent directory
    exists and that names no directory. *)
Lemma copy2_run (w : world) (src dst : string) (qs parent : list string) (n : string)
    (c : bytes) (mt ct : Z) :
  resolve w src = inr qs ->
  fs_get (fs w) qs = Some (File c mt ct) ->
  resolve w dst = inr (parent ++ [n]) ->
  is_dir (fs_get (fs w) parent) = true ->
  is_dir (fs_get (fs w) (parent ++ [n])) = false ->
  qs <> parent ++ [n] ->
  exists root',
    fs_put (clock w (ticks w)) (fs w) (parent ++ [n]) (File c mt (clock w (ticks w)))
      = Some root' /\
    copy2 src dst w =
      (inr tt, mkWorld root' (cwd w) (S (ticks w)) (clock w) (violation_count w)).
Proof using Type.
  intros Hs Hf Hd Hp Hnd Hne.
  destruct (fs_put_child (clock w (ticks w)) (fs w) parent n
              (File c mt (clock w (ticks w))) Hp) as [root' Hput].
  exists root'. split; [exact Hput|].
  unfold copy2. run. rewrite (lookup_path_resolved _ _ _ Hd).
  rewrite Hs. run. rewrite Hf. run.
  destruct (fs_get (fs w) (parent ++ [n])) as [[c' mt' ct'|mt' es']|] eqn:Hq;
    try discriminate; cbn [is_dir]; rewrite Hd; run;
    rewrite bool_decide_eq_false_2 by exact Hne; rewrite Hq; run; now rewrite Hput.
Qed.

End Copying.

Lemma simple_backup_dir : simple_name ".arcsec_backups".
Proof.
  repeat split; try discriminate.
  unfold no_slash. cbn. intuition discriminate.
Qed.


Lemma backup_path_join (snap : string) :
  simple_name snap ->
  os_path_join (PPath.to_str backup_dir) snap = ".arcsec_backups" +:+ "/" +:+ snap.
Proof.
  intros (Hns & Hne & _). unfold os_path_join.
  destruct snap as [|c s]; [congruence|].
  rewrite startswith_cons.
  rewrite (proj2 (Ascii.eqb_neq c "/")); [reflexivity|].
  intros ->. apply Hns. now left.
Qed.

Lemma name_simple (name : string) :
  simple_name name -> PPath.name (PPath.Path name) = name.
Proof.
  intros (Hns & Hne & Hdot & _).
  unfold PPath.name, PPath.Path. cbn [PPath.parts].
  rewrite (split_on_literal _ Hns). cbn [List.filter]. unfold PPath.keep.
  rewrite (proj2 (String.eqb_neq _ "") Hne), (proj2 (String.eqb_neq _ ".") Hdot).
  reflexivity.
Qed.





Lemma chars_app (a b : string) : Str.chars (a +:+ b) = Str.chars a ++ Str.chars b.
Proof.
  induction a as [|c a IH]; [reflexivity|].
  change (String c a +:+ b) with (String c (a +:+ b)).
  cbn [Str.chars app]. now rewrite IH.
Qed.

(** The name of a snapshot is a file name proper. *)
Lemma simple_snapshot (name timestamp : string) :
  no_slash name -> no_slash timestamp -> simple_name (snapshot_name name timestamp).
Proof.
  intros Hn Ht.
  assert (Hlen : 8 <= List.length (Str.chars (snapshot_name name timestamp))).
  { unfold snapshot_name. rewrite !chars_app, !length_app. cbn. lia. }
  split; [|repeat split; intros E; rewrite E in Hlen; cbn in Hlen; lia].
  unfold no_slash, snapshot_name in *. rewrite !chars_app, !in_app_iff.
  cbn. intuition discriminate.
Qed.

Lemma resolve_simple_dir {L : PyLib} (w : world) (name : string) (n : node) :
  simple_name name -> lookup_path w name = inr n ->
  is_dir (fs_get (fs w) (cwd w)) = true.
Proof.
  intros (Hns & Hne & Hdot & Hdd). unfold lookup_path, resolve.
  rewrite (proj2 (String.eqb_neq name "") Hne).
  destruct name as [|c name']; [congruence|].
  assert (Hc : Ascii.eqb c "/" = false).
  { apply Ascii.eqb_neq. intros ->. apply Hns. now left. }
  rewrite startswith_cons, Hc.
  rewrite (split_on_literal _ Hns). cbn [resolve_from].
  rewrite (proj2 (String.eqb_neq _ "") Hne), (proj2 (String.eqb_neq _ ".") Hdot).
  cbn [orb]. destruct (fs_get (fs w) (cwd w)) as [[|mt es]|]; cbn [rbind];
    try discriminate. reflexivity.
Qed.

(** [backup_file] of a regular file of the working directory when there is
    no backup directory yet. *)
Lemma backup_file_run {L : PyLib} (w : world) (name : string) (c : bytes) (mt ct : Z) :
  simple_name name ->
  lookup_path w name = inr (File c mt ct) ->
  fs_get (fs w) (cwd w ++ [".arcsec_backups"]) = None ->
  no_slash (strftime_ymd_hms (clock w (S (ticks w)))) ->
  let snap := snapshot_name name (strftime_ymd_hms (clock w (S (ticks w)))) in
  exists root' dmt,
    backup_file name w =
      (inr (".arcsec_backups" +:+ "/" +:+ snap),
       mkWorld root' (cwd w) (3 + ticks w) (clock w) (violation_count w)) /\
    is_dir (fs_get root' (cwd w)) = true /\
    fs_get root' (cwd w ++ [".arcsec_backups"])
      = Some (Dir dmt [(snap, File c mt (clock w (2 + ticks w)))]) /\
    fs_get root' (cwd w ++ [name]) = Some (File c mt ct).
Proof.
  intros Hn Hl Hno Hts snap.
  pose proof (resolve_simple_dir w name _ Hn Hl) as Hcwd.
  assert (Hfile : fs_get (fs w) (cwd w ++ [name]) = Some (File c mt ct)).
  { rewrite (lookup_path_resolved _ _ _ (resolve_simple w name Hn Hcwd)) in Hl.
    destruct (fs_get (fs w) (cwd w ++ [name])); congruence. }
  assert (Hne : ".arcsec_backups" <> name) by (intros <-; congruence).
  assert (Hsnap : simple_name snap) by (apply simple_snapshot; [apply Hn|exact Hts]).
  set (t0 := clock w (ticks w)).
  destruct (fs_put_child t0 (fs w) (cwd w) ".arcsec_backups" (Dir t0 []) Hcwd)
    as [fs1 Hput1].
  assert (Hnd0 : is_dir (fs_get (fs w) (cwd w ++ [".arcsec_backups"])) = false)
    by now rewrite Hno.
  pose proof (fs_put_keeps_dirs _ _ _ _ _ Hput1 Hnd0) as Hkeep1.
  set (wb := mkWorld fs1 (cwd w) (S (S (ticks w))) (clock w) (violation_count w)).
  assert (Hcwd1 : is_dir (fs_get (fs wb) (cwd wb)) = true) by (apply Hkeep1, Hcwd).
  assert (Hbd1 : fs_get fs1 (cwd w ++ [".arcsec_backups"]) = Some (Dir t0 []))
    by apply (fs_get_put_same _ _ _ _ _ Hput1).
  assert (Hfile1 : fs_get (fs wb) (cwd wb ++ [name]) = Some (File c mt ct)).
  { cbn [fs cwd wb]. rewrite <- Hfile.
    apply (fs_get_put_other t0 (fs w) fs1 (cwd w) ".arcsec_backups" name [] [] _ Hput1 Hne). }
  assert (Hres1 : resolve wb (".arcsec_backups" +:+ "/" +:+ snap)
                  = inr ((cwd wb ++ [".arcsec_backups"]) ++ [snap])).
  { rewrite <- app_assoc. apply resolve_in_subdir; auto using simple_backup_dir.
    cbn [fs cwd wb]. now rewrite Hbd1. }
  destruct (copy2_run wb name (".arcsec_backups" +:+ "/" +:+ snap) _
              (cwd wb ++ [".arcsec_backups"]) snap c mt ct
              (resolve_simple wb name Hn Hcwd1) Hfile1 Hres1)
    as (root' & Hput2 & Hcopy).
  { cbn [fs cwd wb]. now rewrite Hbd1. }
  { cbn [fs cwd wb]. now rewrite fs_get_snoc, Hbd1. }
  { rewrite <- app_assoc. intros E. apply app_inv_head in E. discriminate. }
  cbn [fs cwd wb ticks clock violation_count] in Hput2, Hcopy.
  destruct (fs_get_put_parent _ _ _ _ _ _ _ _ Hbd1 Hput2) as [dmt Hbd2].
  exists root', dmt. split; [|split; [|split]].
  - unfold backup_file, mkdir_exist_ok. run.
    change (PPath.to_str backup_dir) with ".arcsec_backups".
    rewrite (resolve_simple w _ simple_backup_dir Hcwd). run.
    rewrite Hno. run. fold t0. rewrite Hput1. run.
    cbn [fs cwd ticks clock violation_count].
    rewrite (name_simple _ Hn).
    change (".arcsec_backups" +:+ "/" +:+ name +:+ "." +:+
            strftime_ymd_hms (clock w (S (ticks w))) +:+ ".backup")
      with (".arcsec_backups" +:+ "/" +:+ snap).
    fold wb. rewrite Hcopy. reflexivity.
  - apply (fs_put_keeps_dirs _ _ _ _ _ Hput2).
    + cbn [fs cwd wb]. now rewrite fs_get_snoc, Hbd1.
    + apply Hcwd1.
  - exact Hbd2.
  - rewrite <- Hfile1. cbn [fs cwd wb]. rewrite <- app_assoc in Hput2.
    apply (fs_get_put_other _ fs1 root' (cwd w) ".arcsec_backups" name [snap] [] _ Hput2 Hne).
Qed.

Lemma backup_dir_missing {L : PyLib} (w : world) :
  is_dir (fs_get (fs w) (cwd w)) = true ->
  path_exists w backup_dir = false ->
  fs_get (fs w) (cwd w ++ [".arcsec_backups"]) = None.
Proof.
  intros Hcwd. unfold path_exists, os_path_exists.
  change (PPath.to_str backup_dir) with ".arcsec_backups".
  rewrite (lookup_path_resolved _ _ _ (resolve_simple w _ simple_backup_dir Hcwd)).
  now destruct (fs_get (fs w) (cwd w ++ [".arcsec_backups"])).
Qed.

Lemma lookup_simple {L : PyLib} (w : world) (name : string) (n : node) :
  simple_name name ->
  is_dir (fs_get (fs w) (cwd w)) = true ->
  fs_get (fs w) (cwd w ++ [name]) = Some n ->
  lookup_path w name = inr n.
Proof.
  intros Hn Hcwd Hg.
  now rewrite (lookup_path_resolved _ _ _ (resolve_simple w name Hn Hcwd)), Hg.
Qed.

(** X19.  The first backup of a regular file of the working directory:
    when there is no backup directory yet, [backup_file] creates it, stores
    in it one snapshot named after the file and the time of the backup,
    with the contents and the modification time of the file (not the time
    of the backup), returns the path of the snapshot, and leaves the file
    as it was. *)
Theorem backup_file_first_snapshot {L : PyLib}
    (w : world) (name : string) (c : bytes) (mt ct : Z) :
  simple_name name ->
  lookup_path w name = inr (File c mt ct) ->
  path_exists w backup_dir = false ->
  no_slash (strftime_ymd_hms (clock w (S (ticks w)))) ->
  exists w1 dmt t,
    backup_file name w =
      (inr (os_path_join (PPath.to_str backup_dir)
              (snapshot_name name (strftime_ymd_hms (clock w (S (ticks w)))))), w1) /\
    lookup_path w1 (PPath.to_str backup_dir) =
      inr (Dir dmt [(snapshot_name name (strftime_ymd_hms (clock w (S (ticks w)))),
                     File c mt t)]) /\
    lookup_path w1 name = inr (File c mt ct).
Proof.
  intros Hn Hl Hex Hts.
  pose proof (resolve_simple_dir w name _ Hn Hl) as Hcwd.
  destruct (backup_file_run w name c mt ct Hn Hl (backup_dir_missing w Hcwd Hex) Hts)
    as (root' & dmt & Hrun & Hcwd' & Hbd & Hfile).
  eexists _, dmt, _. split; [|split].
  - rewrite backup_path_join; [exact Hrun|].
    apply simple_snapshot; [apply Hn|exact Hts].
  - change (PPath.to_str backup_dir) with ".arcsec_backups".
    apply lookup_simple; [apply simple_backup_dir|exact Hcwd'|exact Hbd].
  - apply lookup_simple; [exact Hn|exact Hcwd'|exact Hfile].
Qed.

Lemma backup_file_first_snapshot_witness :
  exists w1 dmt t,
    backup_file (L := Toy.lib) "arcsec_x.py" Examples.w_tracked =
      (inr ".arcsec_backups/arcsec_x.py.000101.backup", w1) /\
    lookup_path w1 ".arcsec_backups" =
      inr (@Dir Toy.lib dmt
             [("arcsec_x.py.000101.backup", @File Toy.lib (Toy.text "hello") 5 t)]) /\
    lookup_path w1 "arcsec_x.py" = inr (Toy.file "hello" 5).
Proof.
  apply (backup_file_first_snapshot (L := Toy.lib) Examples.w_tracked "arcsec_x.py"
           (Toy.text "hello") 5 5).
  - repeat split; try discriminate. unfold no_slash. cbn. intuition discriminate.
  - reflexivity.
  - reflexivity.
  - unfold no_slash. vm_compute. intuition discriminate.
Defined.






(** ** The handler's answer to a modified file *)








